(** * The HTTP handler of the InfluxDB server: authentication gate and
      statement dispatcher (handler.go)

    The development embeds [getUsernameAndPassword],
    [makeAuthenticationHandler] and [serveQuery] of handler.go as Rocq
    functions and proves what they do on every request.

    - A request is the pair of its URL query values and its header, both
      [map[string][]string] in Go, here [gmap string (list string)].
    - The handler mutates a [*Server] and writes to a [ResponseWriter].
      Both are threaded explicitly in an environment [Env], next to a
      ghost log of the methods of the server that were called.
    - The server itself (server.go), the parser (package influxql) and
      the base64 decoder are not part of handler.go.  They are taken as
      an interface, [ServerAPI] and [Library]: every theorem holds for
      all implementations, and a small reference server is given to run
      the handler on concrete requests.
    - A Go run-time panic (index out of range, nil dereference) ends the
      handler: it is the [Some] case of [Exit]. *)

From Stdlib Require Import ZArith String Ascii List Bool Lia.
From stdpp Require Import base option list strings gmap.

Local Open Scope string_scope.
Local Open Scope list_scope.

(** ** Go values *)

(** A Go [error]: [nil], or a value whose [Error()] is the given text. *)
Definition error : Type := option string.

(** [map[string][]string]: the type of [url.Values] and of [http.Header]. *)
Abbreviation Values := (gmap string (list string)).

(** [url.Values.Get] and [http.Header.Get]: the first value of the key,
    the empty string when the key has no value. *)
Definition Get (v : Values) (key : string) : string :=
  match v !! key with
  | Some (x :: _) => x
  | _ => ""
  end.

(** [strings.Split s sep] for a separator of one byte, the only use the
    handler makes of it: the fields between the separators, in order; a
    string without separator is its own single field. *)
Fixpoint Split (s : string) (sep : ascii) : list string :=
  match s with
  | EmptyString => [""]
  | String c rest =>
      if Ascii.eqb c sep then "" :: Split rest sep
      else match Split rest sep with
           | f :: fs => String c f :: fs
           | [] => [String c ""]
           end
  end.

(** The conversion [uint32(x)] of a signed integer. *)
Definition uint32 (x : Z) : Z := (x mod 2 ^ 32)%Z.

Definition StatusBadRequest : Z := 400.
Definition StatusUnauthorized : Z := 401.

(** ** Requests *)

Record Request : Type := mkRequest {
  URL_Query : Values;
  Header : Values
}.

(** ** Statements of package influxql

    One constructor for each case of the type switch of [serveQuery],
    with the fields that the handler reads, and [OtherStatement] for the
    statements that the switch does not list. *)

Inductive Statement : Type :=
| CreateDatabaseStatement (Name : string)
| DropDatabaseStatement (Name : string)
| CreateUserStatement (Name Password : string)
| DropUserStatement (Name : string)
| SelectStatement
| DropSeriesStatement
| ListSeriesStatement
| ListMeasurementsStatement
| ListTagKeysStatement
| ListTagValuesStatement
| ListFieldKeysStatement
| ListFieldValuesStatement
| GrantStatement
| RevokeStatement
| CreateRetentionPolicyStatement (Name DB : string) (Duration Replication : Z)
| AlterRetentionPolicyStatement (Name DB : string)
    (Duration Replication : option Z)
| CreateContinuousQueryStatement
| DropContinuousQueryStatement
| ListContinuousQueriesStatement
| OtherStatement.

(** [influxql.Query]: its field [Statements]. *)
Definition Query : Type := list Statement.

(** The type assertion of a statement to a create-user statement. *)
Definition isCreateUserStatement (s : Statement) : bool :=
  match s with
  | CreateUserStatement _ _ => true
  | _ => false
  end.

(** The fields of [RetentionPolicy] that the handler assigns. *)
Record RetentionPolicy : Type := mkRetentionPolicy {
  rpName : string;
  rpDuration : Z;
  rpReplicaN : Z
}.

(** ** What handler.go uses and does not define *)

(** The methods of [*Server] that the handler calls.  Reading methods
    return a value, mutating methods the next server and an [error]. *)
Class ServerAPI (Server User : Type) : Type := {
  Users : Server -> list User;
  Authenticate : Server -> string -> string -> User + string;
  AdminUserExists : Server -> bool;
  CreateDatabase : Server -> string -> Server * error;
  DeleteDatabase : Server -> string -> Server * error;
  CreateUser : Server -> string -> string -> bool -> Server * error;
  DeleteUser : Server -> string -> Server * error;
  CreateRetentionPolicy : Server -> string -> RetentionPolicy -> Server * error;
  UpdateRetentionPolicy :
    Server -> string -> string -> RetentionPolicy -> Server * error
}.

(** Functions of other packages: [base64.StdEncoding.DecodeString],
    [influxql.Parser.ParseQuery] on the text of the query, and the
    constructor [NewRetentionPolicy]. *)
Class Library : Type := {
  DecodeString : string -> string + string;
  ParseQuery : string -> Query + string;
  NewRetentionPolicy : string -> RetentionPolicy
}.

(** ** The environment of a request *)

(** The calls made to the server, with their arguments. *)
Inductive Call : Type :=
| CallUsers
| CallAuthenticate (username password : string)
| CallAdminUserExists
| CallCreateDatabase (name : string)
| CallDeleteDatabase (name : string)
| CallCreateUser (name password : string) (admin : bool)
| CallDeleteUser (name : string)
| CallCreateRetentionPolicy (db : string) (rp : RetentionPolicy)
| CallUpdateRetentionPolicy (db name : string) (rp : RetentionPolicy).

(** A call that can change the server: all but the three readers. *)
Definition isMutation (c : Call) : bool :=
  match c with
  | CallUsers | CallAuthenticate _ _ | CallAdminUserExists => false
  | _ => true
  end.

Definition isAuthenticate (c : Call) : bool :=
  match c with
  | CallAuthenticate _ _ => true
  | _ => false
  end.

(** A run-time panic of Go. *)
Inductive Panic : Type :=
| IndexOutOfRange
| NilPointerDereference.

(** How a handler ends: [None] when it returns, [Some p] when it panics. *)
Definition Exit : Type := option Panic.

Record Env (Server : Type) : Type := mkEnv {
  server : Server;                 (* the state behind [h.server] *)
  calls : list Call;               (* ghost: server methods called, in order *)
  written : list (string * Z)      (* calls of [http.Error w text code] *)
}.
Arguments mkEnv {Server}.
Arguments server {Server}.
Arguments calls {Server}.
Arguments written {Server}.

(** The fields of [Handler] that the handler functions read. *)
Record Handler : Type := mkHandler {
  AuthenticationEnabled : bool;
  Version : string
}.

(** ** handler.go *)

Section HandlerGo.

Context {Server User : Type} {api : ServerAPI Server User} {lib : Library}.

Implicit Types (h : Handler) (r : Request) (e : Env Server) (err : error).

(** A handler wrapped by the gate: [func(http.ResponseWriter,
    *http.Request, *User)]; the user is [None] for the nil pointer. *)
Definition HandlerFunc : Type :=
  Request -> option User -> Env Server -> Exit * Env Server.

(** [getUsernameAndPassword]: the credentials of a request, from the
    URL query values [u] and [p] or from a Basic Authentication header. *)
Definition getUsernameAndPassword r : string * string * error :=
  let q := URL_Query r in
  let username := Get q "u" in
  let password := Get q "p" in
  if negb (username =? "") && negb (password =? "") then
    (username, password, None)
  else
    let auth := Get (Header r) "Authorization" in
    if auth =? "" then ("", "", None)
    else
      let fields := Split auth " " in
      if negb (length fields =? 2)%nat then
        ("", "", Some "invalid Basic Authentication header")
      else
        match DecodeString (nth 1 fields "") with
        | inr _ => ("", "", Some "invalid Base64 encoding")
        | inl bs =>
            let fields := Split bs ":" in
            if negb (length fields =? 2)%nat then
              ("", "", Some "invalid Basic Authentication value")
            else (nth 0 fields "", nth 1 fields "", None)
        end.

(** [h.error]: [http.Error w text code]. *)
Definition Handler_error (text : string) (code : Z) e : Env Server :=
  mkEnv (server e) (calls e) (written e ++ [(text, code)]).

(** A call of a method of [h.server]: the ghost log grows by one entry
    and the server is replaced by the one the method leaves. *)
Definition called (c : Call) (s : Server) e : Env Server :=
  mkEnv s (calls e ++ [c]) (written e).

(** [makeAuthenticationHandler fn]: [fn] behind the authentication gate.
    [&&] does not evaluate [h.server.Users()] when authentication is
    disabled. *)
Definition makeAuthenticationHandler h (fn : HandlerFunc) r e
  : Exit * Env Server :=
  if AuthenticationEnabled h then
    let users := Users (server e) in
    let e := called CallUsers (server e) e in
    if (0 <? length users)%nat then
      match getUsernameAndPassword r with
      | (_, _, Some msg) => (None, Handler_error msg StatusUnauthorized e)
      | (username, password, None) =>
          if username =? "" then
            (None, Handler_error "username required" StatusUnauthorized e)
          else
            let res := Authenticate (server e) username password in
            let e := called (CallAuthenticate username password) (server e) e in
            match res with
            | inr msg => (None, Handler_error msg StatusUnauthorized e)
            | inl user => fn r (Some user) e
            end
      end
    else fn r None e
  else fn r None e.

(** What one turn of the loop of [serveQuery] does with a statement. *)
Inductive Turn : Type :=
| TurnContinue                          (* the case ends in [continue] *)
| TurnPanic (p : Panic) (e : Env Server)
| TurnEnd (err : error) (e : Env Server). (* the switch is left *)

(** The type switch of [serveQuery] on one statement; [err] is the
    variable declared before the loop, which a case without a backend
    call leaves as it is. *)
Definition switchStatement (s : Statement) err e : Turn :=
  match s with
  | CreateDatabaseStatement name =>
      let (s', err') := CreateDatabase (server e) name in
      TurnEnd err' (called (CallCreateDatabase name) s' e)
  | DropDatabaseStatement name =>
      let (s', err') := DeleteDatabase (server e) name in
      TurnEnd err' (called (CallDeleteDatabase name) s' e)
  | CreateUserStatement name password =>
      let admin := negb (AdminUserExists (server e)) in
      let e := called CallAdminUserExists (server e) e in
      let (s', err') := CreateUser (server e) name password admin in
      TurnEnd err' (called (CallCreateUser name password admin) s' e)
  | DropUserStatement name =>
      let (s', err') := DeleteUser (server e) name in
      TurnEnd err' (called (CallDeleteUser name) s' e)
  | SelectStatement | DropSeriesStatement | ListSeriesStatement
  | ListMeasurementsStatement | ListTagKeysStatement | ListTagValuesStatement
  | ListFieldKeysStatement | ListFieldValuesStatement
  | GrantStatement | RevokeStatement => TurnContinue
  | CreateRetentionPolicyStatement name db duration replication =>
      let rp := NewRetentionPolicy name in
      let rp := mkRetentionPolicy (rpName rp) duration (rpReplicaN rp) in
      let rp := mkRetentionPolicy (rpName rp) (rpDuration rp) (uint32 replication) in
      let (s', err') := CreateRetentionPolicy (server e) db rp in
      TurnEnd err' (called (CallCreateRetentionPolicy db rp) s' e)
  | AlterRetentionPolicyStatement name db duration replication =>
      let rp := NewRetentionPolicy name in
      match duration with
      | None => TurnPanic NilPointerDereference e
      | Some d =>
          let rp := mkRetentionPolicy (rpName rp) d (rpReplicaN rp) in
          match replication with
          | None => TurnPanic NilPointerDereference e
          | Some n =>
              let rp := mkRetentionPolicy (rpName rp) (rpDuration rp) (uint32 n) in
              let (s', err') := UpdateRetentionPolicy (server e) db name rp in
              TurnEnd err' (called (CallUpdateRetentionPolicy db name rp) s' e)
          end
      end
  | CreateContinuousQueryStatement | DropContinuousQueryStatement
  | ListContinuousQueriesStatement => TurnContinue
  | OtherStatement => TurnEnd err e
  end.

(** The test on [err] that closes a turn of the loop. *)
Definition reportError err e : Env Server :=
  match err with
  | Some msg => Handler_error ("error executing query: " ++ msg) StatusBadRequest e
  | None => e
  end.

(** [for _, s := range query.Statements { ... }]. *)
Fixpoint rangeStatements (stmts : list Statement) err e : Exit * Env Server :=
  match stmts with
  | [] => (None, e)
  | s :: rest =>
      match switchStatement s err e with
      | TurnContinue => rangeStatements rest err e
      | TurnPanic p e' => (Some p, e')
      | TurnEnd err' e' => rangeStatements rest err' (reportError err' e')
      end
  end.

(** The bootstrap check of [serveQuery]: [inl] when the handler is done
    (it returned or panicked), [inr] when it goes on to the loop. *)
Definition bootstrapCheck h (query : Query) e
  : (Exit * Env Server) + Env Server :=
  if AuthenticationEnabled h then
    let users := Users (server e) in
    let e := called CallUsers (server e) e in
    if (0 <? length users)%nat then
      if negb (length query =? 1)%nat then
        match query with
        | [] => inl (Some IndexOutOfRange, e)
        | s0 :: _ =>
            if negb (isCreateUserStatement s0) then
              inl (None, Handler_error "initial admin user does not exist"
                           StatusUnauthorized e)
            else inr e
        end
      else inr e
    else inr e
  else inr e.

(** [serveQuery]: parses the query of the request and executes it. *)
Definition serveQuery h : HandlerFunc := fun r u e =>
  let q := URL_Query r in
  match ParseQuery (Get q "q") with
  | inr msg =>
      (None, Handler_error ("error parsing query: " ++ msg) StatusBadRequest e)
  | inl query =>
      match bootstrapCheck h query e with
      | inl done => done
      | inr e => rangeStatements query None e
      end
  end.

End HandlerGo.

(** ** The loop of [serveQuery], with the variable [err] it leaves *)

Section Loop.

Context {Server User : Type} {api : ServerAPI Server User} {lib : Library}.

(** [rangeStatements] returning also the last value of [err]: the state
    in which the loop is after a prefix of the statements. *)
Fixpoint rangeState (stmts : list Statement) (err : error) (e : Env Server)
  : Exit * error * Env Server :=
  match stmts with
  | [] => (None, err, e)
  | s :: rest =>
      match switchStatement s err e with
      | TurnContinue => rangeState rest err e
      | TurnPanic p e' => (Some p, err, e')
      | TurnEnd err' e' => rangeState rest err' (reportError err' e')
      end
  end.

End Loop.

(** ** A reference server

    Modelled from the spec: the capability interface of the backend
    (server.go is not among the sources): a directory of users with a
    name, a password and an admin flag, and a list of databases.  It is
    used to run the handler on concrete requests only; no theorem about
    handler.go depends on it. *)

Module Ref.

Record user : Type := mkUser {
  uName : string;
  uPassword : string;
  uAdmin : bool
}.

Record state : Type := mkState {
  users : list user;
  databases : list string;
  policies : list (string * RetentionPolicy)
}.

Definition hasUser (s : state) (name : string) : bool :=
  existsb (fun u => uName u =? name) (users s).

Definition hasDatabase (s : state) (name : string) : bool :=
  existsb (String.eqb name) (databases s).

Definition authenticate (s : state) (name password : string) : user + string :=
  match find (fun u => uName u =? name) (users s) with
  | None => inr "user not found"
  | Some u => if uPassword u =? password then inl u else inr "invalid password"
  end.

Definition createDatabase (s : state) (name : string) : state * error :=
  if name =? "" then (s, Some "database name required")
  else if hasDatabase s name then (s, Some "database exists")
  else (mkState (users s) (databases s ++ [name]) (policies s), None).

Definition deleteDatabase (s : state) (name : string) : state * error :=
  if name =? "" then (s, Some "database name required")
  else if hasDatabase s name then
    (mkState (users s)
       (filter (fun d => d <> name) (databases s)) (policies s), None)
  else (s, Some "database not found").

Definition createUser (s : state) (name password : string) (admin : bool)
  : state * error :=
  if name =? "" then (s, Some "username required")
  else if hasUser s name then (s, Some "user exists")
  else (mkState (users s ++ [mkUser name password admin])
          (databases s) (policies s), None).

Definition deleteUser (s : state) (name : string) : state * error :=
  if name =? "" then (s, Some "username required")
  else if hasUser s name then
    (mkState (filter (fun u => uName u <> name) (users s))
       (databases s) (policies s), None)
  else (s, Some "user not found").

Definition createRetentionPolicy (s : state) (db : string)
  (rp : RetentionPolicy) : state * error :=
  if hasDatabase s db then
    (mkState (users s) (databases s) (policies s ++ [(db, rp)]), None)
  else (s, Some "database not found").

Definition updateRetentionPolicy (s : state) (db name : string)
  (rp : RetentionPolicy) : state * error :=
  if hasDatabase s db then
    if existsb (fun p => (fst p =? db) && (rpName (snd p) =? name)) (policies s)
    then (mkState (users s) (databases s)
            (map (fun p => if (fst p =? db) && (rpName (snd p) =? name)
                           then (db, rp) else p) (policies s)), None)
    else (s, Some "retention policy not found")
  else (s, Some "database not found").

#[global] Instance api : ServerAPI state user := {
  Users := users;
  Authenticate := authenticate;
  AdminUserExists := fun s => existsb uAdmin (users s);
  CreateDatabase := createDatabase;
  DeleteDatabase := deleteDatabase;
  CreateUser := createUser;
  DeleteUser := deleteUser;
  CreateRetentionPolicy := createRetentionPolicy;
  UpdateRetentionPolicy := updateRetentionPolicy
}.

(** A library whose parser answers the query [q] to every text, whose
    decoder is [decode], and whose new retention policies have no
    duration and one replica. *)
Definition library (decode : string -> string + string) (q : Query) : Library := {|
  DecodeString := decode;
  ParseQuery := fun _ => inl q;
  NewRetentionPolicy := fun name => mkRetentionPolicy name 0 1
|}.

(** No user, no database. *)
Definition empty : state := mkState [] [] [].

(** The directory of the examples of the spec: the admin lisa. *)
Definition lisa : state := mkState [mkUser "lisa" "password" true] [] [].

(** The environment in which a request starts on the server [s]. *)
Definition start (s : state) : Env state := mkEnv s [] [].

(** A request from its query values [u], [p], [q] and its
    Authorization header; an empty string stands for an absent one. *)
Definition values (kvs : list (string * string)) : Values :=
  list_to_map (omap (fun kv => if snd kv =? "" then None
                               else Some (fst kv, [snd kv])) kvs).

Definition request (u p q authorization : string) : Request :=
  mkRequest (values [("u", u); ("p", p); ("q", q)])
            (values [("Authorization", authorization)]).

Definition secured : Handler := mkHandler true "0.9".
Definition open : Handler := mkHandler false "0.9".

(** A decoder that rejects every text, for the requests whose header is
    not decoded. *)
Definition noBase64 (s : string) : string + string :=
  inr "illegal base64 data".

(** The library whose parser answers [q]. *)
Definition parsing (q : Query) : Library := library noBase64 q.

(** The query values and header of the examples. *)
Definition anonymous : Request := request "" "" "text of the query" "".
Definition asLisa : Request := request "lisa" "password" "text of the query" "".
Definition wrongPassword : Request := request "lisa" "wrong" "text of the query" "".
Definition badHeader : Request := request "" "" "text of the query" "BadValue".
Definition bothCarriers : Request :=
  request "lisa" "password" "text of the query" "BadValue".

(** Queries of the examples. *)
Definition createOrla : Query := [CreateUserStatement "orla" "pass"].
Definition createUserThenDatabase : Query :=
  [CreateUserStatement "maeve" "pass"; CreateDatabaseStatement "db"].
Definition twoDatabases : Query :=
  [CreateDatabaseStatement "a"; CreateDatabaseStatement "b"].
Definition failingFirst : Query :=
  [CreateDatabaseStatement ""; CreateDatabaseStatement "b";
   DropDatabaseStatement "nope"].
Definition alterWithoutDuration : Query :=
  [AlterRetentionPolicyStatement "rp" "db" None (Some 1%Z)].

(** The handler of the route [/query] for a request whose text parses
    to [q]: [serveQuery] behind the gate. *)
Definition query_route (h : Handler) (q : Query)
  : Request -> Env state -> Exit * Env state :=
  makeAuthenticationHandler (lib := parsing q) h (serveQuery (lib := parsing q) h).

(** The users of the examples. *)
Definition userLisa : user := mkUser "lisa" "password" true.
Definition userMaeve : user := mkUser "maeve" "pass" false.
Definition userOrla : user := mkUser "orla" "pass" true.

(** A decoder given by a table of encoded and decoded texts; what is not
    in the table is not base64. *)
Definition decodeTable (table : list (string * string)) (s : string)
  : string + string :=
  match find (fun kv => fst kv =? s) table with
  | Some kv => inl (snd kv)
  | None => inr "illegal base64 data"
  end.

(** The library that decodes the two payloads of the examples and whose
    parser answers [q]. *)
Definition decoding (q : Query) : Library :=
  library (decodeTable [("bGlzYTpwYXNzd29yZA==", "lisa:password");
                        ("bGlzYTpwYTpzcw==", "lisa:pa:ss")]) q.

(** Requests with a header, and one with a username alone. *)
Definition basicLisa : Request :=
  request "" "" "text of the query" "Basic bGlzYTpwYXNzd29yZA==".
Definition bearerLisa : Request :=
  request "" "" "text of the query" "Bearer bGlzYTpwYXNzd29yZA==".
Definition colonPassword : Request :=
  request "" "" "text of the query" "Basic bGlzYTpwYTpzcw==".
Definition onlyUsername : Request := request "lisa" "" "text of the query" "".

(** More queries. *)
Definition selectAndList : Query := [SelectStatement; ListSeriesStatement].
Definition twoUsers : Query :=
  [CreateUserStatement "orla" "pass"; CreateUserStatement "maeve" "pass"].
Definition failThenUnlisted : Query :=
  CreateDatabaseStatement "" :: repeat OtherStatement 2.

End Ref.

(** ** The handlers of the resources: shards, retention policies, data
       nodes

    These handlers compare the error of the server with the errors that
    server.go declares ([ErrDatabaseNotFound] and the like), and they
    write more than errors: a status, a header, a JSON document.  Their
    server is therefore given an interface of its own, with errors that
    can be told apart, and their [ResponseWriter] is the list of the
    operations done on it. *)

Module Resources.

Definition StatusCreated : Z := 201.
Definition StatusNoContent : Z := 204.
Definition StatusNotFound : Z := 404.
Definition StatusConflict : Z := 409.
Definition StatusInternalServerError : Z := 500.

(** The error variables of server.go that handler.go names. *)
Inductive Sentinel : Type :=
| ErrDatabaseNotFound
| ErrRetentionPolicyExists
| ErrRetentionPolicyNotFound
| ErrDataNodeExists
| ErrDataNodeNotFound.

(** A non-nil [error] of the server: one of the variables above, which
    [==] recognizes, or any other error, with its text. *)
Inductive ServerError : Type :=
| Known (s : Sentinel)
| Unknown (text : string).

(** [dataNodeJSON]. *)
Record dataNodeJSON : Type := mkDataNodeJSON {
  ID : Z;
  URL : string
}.

(** The fields [ID] and [URL] of a [*DataNode]. *)
Record DataNode (U : Type) : Type := mkDataNode {
  nodeID : Z;
  nodeURL : U
}.
Arguments mkDataNode {U}.
Arguments nodeID {U}.
Arguments nodeURL {U}.

(** The methods of [*Server] that these handlers call; [U] is the type
    of a parsed URL, [ErrorText] gives the text of the declared errors. *)
Class ClusterAPI (Server Shard U : Type) : Type := {
  ErrorText : Sentinel -> string;
  Shards : Server -> string -> list Shard * option ServerError;
  RetentionPolicies :
    Server -> string -> list RetentionPolicy * option ServerError;
  CreateRetentionPolicy :
    Server -> string -> RetentionPolicy -> Server * option ServerError;
  UpdateRetentionPolicy :
    Server -> string -> string -> RetentionPolicy -> Server * option ServerError;
  DeleteRetentionPolicy :
    Server -> string -> string -> Server * option ServerError;
  DataNodes : Server -> list (DataNode U);
  CreateDataNode : Server -> U -> Server * option ServerError;
  DataNodeByURL : Server -> U -> option (DataNode U);
  DeleteDataNode : Server -> Z -> Server * option ServerError
}.

(** Functions of other packages: the JSON decoder on the body of a
    request, for the two types that are decoded, [url.Parse] and the
    method [String] of a URL. *)
Class Codec (U : Type) : Type := {
  decodeRetentionPolicy : string -> RetentionPolicy + string;
  decodeDataNode : string -> dataNodeJSON + string;
  url_Parse : string -> U + string;
  url_String : U -> string
}.

(** [strconv.ParseUint s 10 64]: the value of a string of decimal
    digits, not empty and below [2^64]; [None] for every error. *)
Definition digitValue (c : ascii) : option Z :=
  let n := Z.of_nat (nat_of_ascii c) in
  if (48 <=? n)%Z && (n <=? 57)%Z then Some (n - 48)%Z else None.

Fixpoint parseDigits (s : string) (acc : Z) : option Z :=
  match s with
  | EmptyString => Some acc
  | String c rest =>
      match digitValue c with
      | None => None
      | Some d =>
          let acc := (acc * 10 + d)%Z in
          if (acc <? 2 ^ 64)%Z then parseDigits rest acc else None
      end
  end.

Definition ParseUint (s : string) : option Z :=
  match s with
  | EmptyString => None
  | _ => parseDigits s 0
  end.

(** The methods called on the server, with their arguments. *)
Inductive Call (U : Type) : Type :=
| CallShards (db : string)
| CallRetentionPolicies (db : string)
| CallCreateRetentionPolicy (db : string) (rp : RetentionPolicy)
| CallUpdateRetentionPolicy (db name : string) (rp : RetentionPolicy)
| CallDeleteRetentionPolicy (db name : string)
| CallDataNodes
| CallCreateDataNode (u : U)
| CallDataNodeByURL (u : U)
| CallDeleteDataNode (id : Z).
Arguments CallShards {U}.
Arguments CallRetentionPolicies {U}.
Arguments CallCreateRetentionPolicy {U}.
Arguments CallUpdateRetentionPolicy {U}.
Arguments CallDeleteRetentionPolicy {U}.
Arguments CallDataNodes {U}.
Arguments CallCreateDataNode {U}.
Arguments CallDataNodeByURL {U}.
Arguments CallDeleteDataNode {U}.

(** What is encoded to the response. *)
Inductive Document (Shard : Type) : Type :=
| DocShards (shards : list Shard)
| DocPolicies (policies : list RetentionPolicy)
| DocDataNodes (nodes : list dataNodeJSON)
| DocDataNode (node : dataNodeJSON).
Arguments DocShards {Shard}.
Arguments DocPolicies {Shard}.
Arguments DocDataNodes {Shard}.
Arguments DocDataNode {Shard}.

(** The operations of a handler on its [ResponseWriter]. *)
Inductive Write (Shard : Type) : Type :=
| HeaderAdd (key value : string)         (* [w.Header().Add key value] *)
| WriteHeader (code : Z)                 (* [w.WriteHeader code] *)
| HttpError (text : string) (code : Z)   (* [http.Error w text code] *)
| Encode (doc : Document Shard).         (* [json.NewEncoder(w).Encode doc] *)
Arguments HeaderAdd {Shard}.
Arguments WriteHeader {Shard}.
Arguments HttpError {Shard}.
Arguments Encode {Shard}.

(** The server, the ghost log of the calls made to it, and the
    operations done on the response, in order. *)
Record Conn (Server Shard U : Type) : Type := mkConn {
  cluster : Server;
  asked : list (Call U);
  response : list (Write Shard)
}.
Arguments mkConn {Server Shard U}.
Arguments cluster {Server Shard U}.
Arguments asked {Server Shard U}.
Arguments response {Server Shard U}.

Section Handlers.

Context {Server Shard U User : Type}.
Context {api : ClusterAPI Server Shard U} {codec : Codec U}.

Implicit Types (r : Request) (body : string) (u : option User).
Implicit Types (c : Conn Server Shard U).

(** A handler, with the body of the request next to the request. *)
Definition ResourceFunc : Type :=
  Request -> string -> option User -> Conn Server Shard U
  -> Exit * Conn Server Shard U.

(** [err.Error()]. *)
Definition Error (err : ServerError) : string :=
  match err with
  | Known s => ErrorText s
  | Unknown text => text
  end.

Definition respond (w : Write Shard) c : Conn Server Shard U :=
  mkConn (cluster c) (asked c) (response c ++ [w]).

Definition ask (call : Call U) (s : Server) c : Conn Server Shard U :=
  mkConn s (asked c ++ [call]) (response c).

(** [h.error]. *)
Definition error (text : string) (code : Z) c : Conn Server Shard U :=
  respond (HttpError text code) c.

(** [serveWriteSeries], whose body is commented out, [servePing] and
    [serveDeleteShard]. *)
Definition serveWriteSeries : ResourceFunc := fun r body u c => (None, c).
Definition servePing : ResourceFunc := fun r body u c => (None, c).
Definition serveDeleteShard : ResourceFunc := fun r body u c => (None, c).

(** [serveShards]. *)
Definition serveShards : ResourceFunc := fun r body u c =>
  let q := URL_Query r in
  let db := Get q ":db" in
  let (shards, err) := Shards (cluster c) db in
  let c := ask (CallShards db) (cluster c) c in
  match err with
  | Some (Known ErrDatabaseNotFound) =>
      (None, error (Error (Known ErrDatabaseNotFound)) StatusNotFound c)
  | Some err => (None, error (Error err) StatusInternalServerError c)
  | None =>
      let c := respond (HeaderAdd "content-type" "application/json") c in
      (None, respond (Encode (DocShards shards)) c)
  end.

(** [serveRetentionPolicies]. *)
Definition serveRetentionPolicies : ResourceFunc := fun r body u c =>
  let db := Get (URL_Query r) ":db" in
  let (policies, err) := RetentionPolicies (cluster c) db in
  let c := ask (CallRetentionPolicies db) (cluster c) c in
  match err with
  | Some (Known ErrDatabaseNotFound) =>
      (None, error (Error (Known ErrDatabaseNotFound)) StatusNotFound c)
  | Some err => (None, error (Error err) StatusInternalServerError c)
  | None =>
      let c := respond (HeaderAdd "content-type" "application/json") c in
      (None, respond (Encode (DocPolicies policies)) c)
  end.

(** [serveCreateRetentionPolicy]. *)
Definition serveCreateRetentionPolicy : ResourceFunc := fun r body u c =>
  match decodeRetentionPolicy body with
  | inr msg => (None, error msg StatusBadRequest c)
  | inl policy =>
      let db := Get (URL_Query r) ":db" in
      let (s, err) := CreateRetentionPolicy (cluster c) db policy in
      let c := ask (CallCreateRetentionPolicy db policy) s c in
      match err with
      | Some (Known ErrDatabaseNotFound) =>
          (None, error (Error (Known ErrDatabaseNotFound)) StatusNotFound c)
      | Some (Known ErrRetentionPolicyExists) =>
          (None, error (Error (Known ErrRetentionPolicyExists)) StatusConflict c)
      | Some err => (None, error (Error err) StatusInternalServerError c)
      | None => (None, respond (WriteHeader StatusCreated) c)
      end
  end.

(** [serveUpdateRetentionPolicy]. *)
Definition serveUpdateRetentionPolicy : ResourceFunc := fun r body u c =>
  let q := URL_Query r in
  let db := Get q ":db" in
  let name := Get q ":name" in
  match decodeRetentionPolicy body with
  | inr msg => (None, error msg StatusBadRequest c)
  | inl policy =>
      let (s, err) := UpdateRetentionPolicy (cluster c) db name policy in
      let c := ask (CallUpdateRetentionPolicy db name policy) s c in
      match err with
      | Some (Known ErrDatabaseNotFound) =>
          (None, error (Error (Known ErrDatabaseNotFound)) StatusNotFound c)
      | Some (Known ErrRetentionPolicyNotFound) =>
          (None, error (Error (Known ErrRetentionPolicyNotFound)) StatusNotFound c)
      | Some err => (None, error (Error err) StatusInternalServerError c)
      | None => (None, respond (WriteHeader StatusNoContent) c)
      end
  end.

(** [serveDeleteRetentionPolicy]. *)
Definition serveDeleteRetentionPolicy : ResourceFunc := fun r body u c =>
  let q := URL_Query r in
  let db := Get q ":db" in
  let name := Get q ":name" in
  let (s, err) := DeleteRetentionPolicy (cluster c) db name in
  let c := ask (CallDeleteRetentionPolicy db name) s c in
  match err with
  | Some (Known ErrDatabaseNotFound) =>
      (None, error (Error (Known ErrDatabaseNotFound)) StatusNotFound c)
  | Some (Known ErrRetentionPolicyNotFound) =>
      (None, error (Error (Known ErrRetentionPolicyNotFound)) StatusNotFound c)
  | Some err => (None, error (Error err) StatusInternalServerError c)
  | None => (None, respond (WriteHeader StatusNoContent) c)
  end.

(** [serveDataNodes]. *)
Definition serveDataNodes : ResourceFunc := fun r body u c =>
  let a := map (fun n => mkDataNodeJSON (nodeID n) (url_String (nodeURL n)))
               (DataNodes (cluster c)) in
  let c := ask CallDataNodes (cluster c) c in
  let c := respond (HeaderAdd "content-type" "application/json") c in
  (None, respond (Encode (DocDataNodes a)) c).

(** [serveCreateDataNode].  The node is read back before the status is
    written, and its fields are read after the header is added: when
    the server does not find the node, the handler panics there. *)
Definition serveCreateDataNode : ResourceFunc := fun r body u c =>
  match decodeDataNode body with
  | inr msg => (None, error msg StatusBadRequest c)
  | inl n =>
      match url_Parse (URL n) with
      | inr _ => (None, error "invalid data node url" StatusBadRequest c)
      | inl url =>
          let (s, err) := CreateDataNode (cluster c) url in
          let c := ask (CallCreateDataNode url) s c in
          match err with
          | Some (Known ErrDataNodeExists) =>
              (None, error (Error (Known ErrDataNodeExists)) StatusConflict c)
          | Some err => (None, error (Error err) StatusInternalServerError c)
          | None =>
              let node := DataNodeByURL (cluster c) url in
              let c := ask (CallDataNodeByURL url) (cluster c) c in
              let c := respond (WriteHeader StatusCreated) c in
              let c := respond (HeaderAdd "content-type" "application/json") c in
              match node with
              | None => (Some NilPointerDereference, c)
              | Some node =>
                  (None,
                   respond (Encode (DocDataNode
                     (mkDataNodeJSON (nodeID node) (url_String (nodeURL node))))) c)
              end
          end
      end
  end.

(** [serveDeleteDataNode]. *)
Definition serveDeleteDataNode : ResourceFunc := fun r body u c =>
  match ParseUint (Get (URL_Query r) ":id") with
  | None => (None, error "invalid node id" StatusBadRequest c)
  | Some nodeID =>
      let (s, err) := DeleteDataNode (cluster c) nodeID in
      let c := ask (CallDeleteDataNode nodeID) s c in
      match err with
      | Some (Known ErrDataNodeNotFound) =>
          (None, error (Error (Known ErrDataNodeNotFound)) StatusNotFound c)
      | Some err => (None, error (Error err) StatusInternalServerError c)
      | None => (None, respond (WriteHeader StatusNoContent) c)
      end
  end.

End Handlers.

End Resources.

(** ** A reference server for the resources

    Modelled from the spec: the operations on retention policies and
    data nodes of the capability interface of the backend (server.go is
    not among the sources), with the texts of its errors, and a codec
    that reads the body of a request as the name of a policy or as the
    URL of a node.  It is used to run the handlers on concrete requests
    only; no theorem about handler.go depends on it. *)

Module RefCluster.

Import Resources.

Record state : Type := mkState {
  nodes : list (DataNode string);
  nextID : Z;
  databases : list (string * list RetentionPolicy)
}.

Definition errorText (s : Sentinel) : string :=
  match s with
  | ErrDatabaseNotFound => "database not found"
  | ErrRetentionPolicyExists => "retention policy exists"
  | ErrRetentionPolicyNotFound => "retention policy not found"
  | ErrDataNodeExists => "data node exists"
  | ErrDataNodeNotFound => "data node not found"
  end.

Definition policiesOf (s : state) (db : string)
  : option (list RetentionPolicy) :=
  snd <$> find (fun d => fst d =? db) (databases s).

Definition setPolicies (s : state) (db : string) (ps : list RetentionPolicy)
  : state :=
  mkState (nodes s) (nextID s)
    (map (fun d => if fst d =? db then (db, ps) else d) (databases s)).

Definition hasPolicy (ps : list RetentionPolicy) (name : string) : bool :=
  existsb (fun p => rpName p =? name) ps.

Definition shards (s : state) (db : string) : list Z * option ServerError :=
  match policiesOf s db with
  | None => ([], Some (Known ErrDatabaseNotFound))
  | Some _ => ([], None)
  end.

Definition retentionPolicies (s : state) (db : string)
  : list RetentionPolicy * option ServerError :=
  match policiesOf s db with
  | None => ([], Some (Known ErrDatabaseNotFound))
  | Some ps => (ps, None)
  end.

Definition createRetentionPolicy (s : state) (db : string)
  (rp : RetentionPolicy) : state * option ServerError :=
  match policiesOf s db with
  | None => (s, Some (Known ErrDatabaseNotFound))
  | Some ps =>
      if rpName rp =? "" then (s, Some (Unknown "retention policy name required"))
      else if hasPolicy ps (rpName rp)
      then (s, Some (Known ErrRetentionPolicyExists))
      else (setPolicies s db (ps ++ [rp]), None)
  end.

Definition updateRetentionPolicy (s : state) (db name : string)
  (rp : RetentionPolicy) : state * option ServerError :=
  match policiesOf s db with
  | None => (s, Some (Known ErrDatabaseNotFound))
  | Some ps =>
      if hasPolicy ps name then
        (setPolicies s db
           (map (fun p => if rpName p =? name then rp else p) ps), None)
      else (s, Some (Known ErrRetentionPolicyNotFound))
  end.

Definition deleteRetentionPolicy (s : state) (db name : string)
  : state * option ServerError :=
  match policiesOf s db with
  | None => (s, Some (Known ErrDatabaseNotFound))
  | Some ps =>
      if hasPolicy ps name then
        (setPolicies s db (filter (fun p => rpName p <> name) ps), None)
      else (s, Some (Known ErrRetentionPolicyNotFound))
  end.

Definition dataNodeByURL (s : state) (u : string) : option (DataNode string) :=
  find (fun n => nodeURL n =? u) (nodes s).

Definition createDataNode (s : state) (u : string) : state * option ServerError :=
  match dataNodeByURL s u with
  | Some _ => (s, Some (Known ErrDataNodeExists))
  | None =>
      (mkState (nodes s ++ [mkDataNode (nextID s) u]) (nextID s + 1)
         (databases s), None)
  end.

Definition deleteDataNode (s : state) (id : Z) : state * option ServerError :=
  if existsb (fun n => (nodeID n =? id)%Z) (nodes s) then
    (mkState (filter (fun n => nodeID n <> id) (nodes s)) (nextID s)
       (databases s), None)
  else (s, Some (Known ErrDataNodeNotFound)).

#[global] Instance api : ClusterAPI state Z string := {
  ErrorText := errorText;
  Shards := shards;
  RetentionPolicies := retentionPolicies;
  CreateRetentionPolicy := createRetentionPolicy;
  UpdateRetentionPolicy := updateRetentionPolicy;
  DeleteRetentionPolicy := deleteRetentionPolicy;
  DataNodes := nodes;
  CreateDataNode := createDataNode;
  DataNodeByURL := dataNodeByURL;
  DeleteDataNode := deleteDataNode
}.

(** The body of a request is the name of the policy, or the URL of the
    node; an empty body does not decode, a URL with a space does not
    parse. *)
#[global] Instance codec : Codec string := {
  decodeRetentionPolicy := fun body =>
    if body =? "" then inr "EOF" else inl (mkRetentionPolicy body 3600 1);
  decodeDataNode := fun body =>
    if body =? "" then inr "EOF" else inl (mkDataNodeJSON 0 body);
  url_Parse := fun s =>
    if existsb (Ascii.eqb " "%char) (list_ascii_of_string s)
    then inr "invalid character in host name" else inl s;
  url_String := fun u => u
}.

(** A server that forgets the nodes it creates: [DataNodeByURL] finds
    nothing. *)
Definition forgetful : ClusterAPI state Z string := {|
  ErrorText := errorText;
  Shards := shards;
  RetentionPolicies := retentionPolicies;
  CreateRetentionPolicy := createRetentionPolicy;
  UpdateRetentionPolicy := updateRetentionPolicy;
  DeleteRetentionPolicy := deleteRetentionPolicy;
  DataNodes := nodes;
  CreateDataNode := createDataNode;
  DataNodeByURL := fun _ _ => None;
  DeleteDataNode := deleteDataNode
|}.

(** One database, [foo], with the policy [bar], and the node 1. *)
Definition foo : state :=
  mkState [mkDataNode 1 "http://localhost:1000"] 2
    [("foo", [mkRetentionPolicy "bar" 3600 1])].

(** The connection in which a request starts on the server [s]. *)
Definition start (s : state) : Conn state Z string := mkConn s [] [].

(** A request with the parameters that the router adds for the path. *)
Definition request (db name id : string) : Request :=
  mkRequest (Ref.values [(":db", db); (":name", name); (":id", id)]) ∅.

(** The handlers on this server, for a user of the first reference
    server. *)
Definition handler : Type := ResourceFunc (Server := state) (Shard := Z)
                               (U := string) (User := Ref.user).

End RefCluster.

(** ** The credential extractor *)

Section Extractor.

Context {lib : Library}.

Lemma eqb_empty_false (s : string) : s <> "" -> (s =? "") = false.
Proof. intros Hs. by apply String.eqb_neq. Qed.

(** C7: when the query values [u] and [p] are both present and not
    empty, [getUsernameAndPassword] returns exactly this pair and no
    error, and the result is the same whatever the header of the request
    holds: the Authorization header is not consulted. *)
Theorem getUsernameAndPassword_query_params (r : Request) :
  Get (URL_Query r) "u" <> "" ->
  Get (URL_Query r) "p" <> "" ->
  getUsernameAndPassword r = (Get (URL_Query r) "u", Get (URL_Query r) "p", None)
  /\ forall hdr : Values,
       getUsernameAndPassword (mkRequest (URL_Query r) hdr)
       = getUsernameAndPassword r.
Proof.
  intros Hu Hp.
  assert (Hq : forall hdr : Values,
             getUsernameAndPassword (mkRequest (URL_Query r) hdr)
             = (Get (URL_Query r) "u", Get (URL_Query r) "p", None)).
  { intros hdr. unfold getUsernameAndPassword. cbn [URL_Query].
    by rewrite (eqb_empty_false _ Hu), (eqb_empty_false _ Hp). }
  split.
  - destruct r as [q hdr]. apply Hq.
  - intros hdr. rewrite Hq. destruct r as [q hdr']. symmetry. apply Hq.
Qed.

(** The extractor on a request without usable query credentials. *)
Lemma getUsernameAndPassword_header (r : Request) :
  ~ (Get (URL_Query r) "u" <> "" /\ Get (URL_Query r) "p" <> "") ->
  Get (Header r) "Authorization" <> "" ->
  length (Split (Get (Header r) "Authorization") " ") <> 2%nat ->
  getUsernameAndPassword r = ("", "", Some "invalid Basic Authentication header").
Proof.
  intros Hq Ha Hf. unfold getUsernameAndPassword.
  destruct (Get (URL_Query r) "u" =? "") eqn:Eu;
    destruct (Get (URL_Query r) "p" =? "") eqn:Ep; cbn [negb andb].
  4: { exfalso. apply Hq. split; by apply String.eqb_neq. }
  all: rewrite (eqb_empty_false _ Ha);
    apply Nat.eqb_neq in Hf; by rewrite Hf.
Qed.

(** Without query credentials and without header there are no
    credentials, and no error. *)
Lemma getUsernameAndPassword_none (r : Request) :
  Get (URL_Query r) "u" = "" ->
  Get (Header r) "Authorization" = "" ->
  getUsernameAndPassword r = ("", "", None).
Proof.
  intros Hu Ha. unfold getUsernameAndPassword. by rewrite Hu, Ha.
Qed.

End Extractor.

(** ** The authentication gate *)

Section Gate.

Context {Server User : Type} {api : ServerAPI Server User} {lib : Library}.

Implicit Types (h : Handler) (r : Request) (e : Env Server).
Implicit Types (fn : HandlerFunc (Server := Server) (User := User)).

(** The test [len(h.server.Users()) > 0]. *)
Lemma users_nonempty e : Users (server e) <> [] ->
  (0 <? length (Users (server e)))%nat = true.
Proof.
  intros Hu. apply Nat.ltb_lt. destruct (Users (server e)); [done | cbn; lia].
Qed.

Lemma users_empty e : Users (server e) = [] ->
  (0 <? length (Users (server e)))%nat = false.
Proof. by intros ->. Qed.

(** The gate when it is closed, on the result of the extractor. *)
Lemma gate_closed h fn r e :
  AuthenticationEnabled h = true -> Users (server e) <> [] ->
  makeAuthenticationHandler h fn r e =
  let e1 := mkEnv (server e) (calls e ++ [CallUsers]) (written e) in
  match getUsernameAndPassword r with
  | (_, _, Some msg) => (None, Handler_error msg StatusUnauthorized e1)
  | (username, password, None) =>
      if username =? "" then
        (None, Handler_error "username required" StatusUnauthorized e1)
      else
        let e2 := mkEnv (server e)
                    (calls e ++ [CallUsers; CallAuthenticate username password])
                    (written e) in
        match Authenticate (server e) username password with
        | inr msg => (None, Handler_error msg StatusUnauthorized e2)
        | inl user => fn r (Some user) e2
        end
  end.
Proof.
  intros He Hu. unfold makeAuthenticationHandler.
  rewrite He. cbn [called server calls written]. rewrite (users_nonempty _ Hu).
  destruct (getUsernameAndPassword r) as [[username password] [msg|]]; [done|].
  destruct (username =? ""); [done|].
  unfold called. cbn [server calls written]. rewrite <- app_assoc. done.
Qed.

(** C3: with authentication enabled and at least one user in the
    directory, the gate answers every request as follows.  If the
    extractor fails: 401 with the text of its error.  Otherwise, if the
    username is empty: 401 with [username required].  Otherwise, if
    [Authenticate] fails: 401 with the text of its error.  Otherwise the
    wrapped handler runs with the authenticated user.  In the three
    rejections the result is the same for every wrapped handler, which
    is therefore not invoked; the server is unchanged and the only calls
    made to it are the readers [Users] and [Authenticate]. *)
Theorem makeAuthenticationHandler_enabled h r e :
  AuthenticationEnabled h = true ->
  Users (server e) <> [] ->
  (forall u p msg, getUsernameAndPassword r = (u, p, Some msg) ->
     forall fn, makeAuthenticationHandler h fn r e =
       (None, mkEnv (server e) (calls e ++ [CallUsers])
                (written e ++ [(msg, 401%Z)])))
  /\ (forall p, getUsernameAndPassword r = ("", p, None) ->
     forall fn, makeAuthenticationHandler h fn r e =
       (None, mkEnv (server e) (calls e ++ [CallUsers])
                (written e ++ [("username required", 401%Z)])))
  /\ (forall u p msg, getUsernameAndPassword r = (u, p, None) -> u <> "" ->
     Authenticate (server e) u p = inr msg ->
     forall fn, makeAuthenticationHandler h fn r e =
       (None, mkEnv (server e) (calls e ++ [CallUsers; CallAuthenticate u p])
                (written e ++ [(msg, 401%Z)])))
  /\ (forall u p user, getUsernameAndPassword r = (u, p, None) -> u <> "" ->
     Authenticate (server e) u p = inl user ->
     forall fn, makeAuthenticationHandler h fn r e =
       fn r (Some user)
         (mkEnv (server e) (calls e ++ [CallUsers; CallAuthenticate u p])
            (written e))).
Proof.
  intros He Hu. repeat split.
  - intros u p msg Hx fn. rewrite (gate_closed _ _ _ _ He Hu), Hx. done.
  - intros p Hx fn. rewrite (gate_closed _ _ _ _ He Hu), Hx. done.
  - intros u p msg Hx Hne Ha fn.
    rewrite (gate_closed _ _ _ _ He Hu), Hx, (eqb_empty_false _ Hne).
    cbn zeta. rewrite Ha. done.
  - intros u p user Hx Hne Ha fn.
    rewrite (gate_closed _ _ _ _ He Hu), Hx, (eqb_empty_false _ Hne).
    cbn zeta. rewrite Ha. done.
Qed.

(** The gate when it is open. *)
Lemma gate_open h fn r e :
  AuthenticationEnabled h = false \/ Users (server e) = [] ->
  makeAuthenticationHandler h fn r e =
  fn r None
    (mkEnv (server e)
       (calls e ++ (if AuthenticationEnabled h then [CallUsers] else []))
       (written e)).
Proof.
  intros Hopen. unfold makeAuthenticationHandler.
  destruct (AuthenticationEnabled h) eqn:He.
  - destruct Hopen as [Hd | Hu]; [done|].
    cbn [called server]. by rewrite (users_empty _ Hu).
  - rewrite app_nil_r. by destruct e.
Qed.

(** C4: with authentication disabled, or with no user in the directory,
    the gate runs the wrapped handler with the nil user on every
    request.  The environment it hands over does not depend on the
    request: the gate has called at most [Users], never [Authenticate],
    and has written nothing.  Hence two requests that the wrapped
    handler does not distinguish, such as two requests that differ in
    their credentials only, have the same outcome. *)
Theorem makeAuthenticationHandler_open h e :
  AuthenticationEnabled h = false \/ Users (server e) = [] ->
  let e0 := mkEnv (server e)
              (calls e ++ (if AuthenticationEnabled h then [CallUsers] else []))
              (written e) in
  (forall fn r, makeAuthenticationHandler h fn r e = fn r None e0)
  /\ existsb isAuthenticate
       (if AuthenticationEnabled h then [CallUsers] else []) = false
  /\ (forall fn r1 r2, (forall u e', fn r1 u e' = fn r2 u e') ->
        makeAuthenticationHandler h fn r1 e
        = makeAuthenticationHandler h fn r2 e).
Proof.
  intros Hopen e0. split; [|split].
  - intros fn r. by apply gate_open.
  - by destruct (AuthenticationEnabled h).
  - intros fn r1 r2 Hfn. by rewrite !gate_open.
Qed.

(** The gate on a header that is not made of two fields. *)
Lemma gate_malformed_header h fn r e :
  AuthenticationEnabled h = true -> Users (server e) <> [] ->
  ~ (Get (URL_Query r) "u" <> "" /\ Get (URL_Query r) "p" <> "") ->
  Get (Header r) "Authorization" <> "" ->
  length (Split (Get (Header r) "Authorization") " ") <> 2%nat ->
  makeAuthenticationHandler h fn r e =
    (None, mkEnv (server e) (calls e ++ [CallUsers])
             (written e ++ [("invalid Basic Authentication header", 401%Z)])).
Proof.
  intros He Hu Hq Ha Hf.
  rewrite (gate_closed _ _ _ _ He Hu), (getUsernameAndPassword_header _ Hq Ha Hf).
  done.
Qed.

(** C8, as the code has it: a request without query credentials whose
    Authorization header is present and is not made of exactly two
    fields separated by a space makes the extractor fail, with the text
    [invalid Basic Authentication header]; when authentication is
    enabled and there is a user, the gate answers 401 with this text and
    the only call made to the server is [Users]: [Authenticate] is not
    called and the wrapped handler does not run. *)
Theorem malformed_header_unauthorized h r e :
  ~ (Get (URL_Query r) "u" <> "" /\ Get (URL_Query r) "p" <> "") ->
  Get (Header r) "Authorization" <> "" ->
  length (Split (Get (Header r) "Authorization") " ") <> 2%nat ->
  getUsernameAndPassword r
    = ("", "", Some "invalid Basic Authentication header")
  /\ (AuthenticationEnabled h = true -> Users (server e) <> [] ->
      forall fn, makeAuthenticationHandler h fn r e =
        (None, mkEnv (server e) (calls e ++ [CallUsers])
                 (written e ++ [("invalid Basic Authentication header", 401%Z)]))).
Proof.
  intros Hq Ha Hf. split.
  - by apply getUsernameAndPassword_header.
  - intros He Hu fn. by apply gate_malformed_header.
Qed.

End Gate.

(** ** The statement dispatcher *)

Section Dispatcher.

Context {Server User : Type} {api : ServerAPI Server User} {lib : Library}.

Implicit Types (h : Handler) (r : Request) (e : Env Server) (err : error).
Implicit Types (u : option User) (stmts pre post : list Statement).

(** [rangeState] is the loop of [serveQuery]. *)
Lemma rangeStatements_rangeState stmts err e :
  rangeStatements stmts err e =
  (fst (fst (rangeState stmts err e)), snd (rangeState stmts err e)).
Proof.
  revert err e. induction stmts as [|s rest IH]; intros err e; [done|].
  cbn [rangeStatements rangeState].
  destruct (switchStatement s err e) as [|p e'|err' e']; [apply IH|done|apply IH].
Qed.

(** The loop on a list in two parts: the second part starts in the
    state left by the first, unless the first panics. *)
Lemma rangeState_app pre post err e :
  rangeState (pre ++ post) err e =
  match rangeState pre err e with
  | (None, err', e') => rangeState post err' e'
  | (Some p, err', e') => (Some p, err', e')
  end.
Proof.
  revert err e. induction pre as [|s rest IH]; intros err e; [done|].
  cbn [app rangeState].
  destruct (switchStatement s err e) as [|p e'|err' e']; [apply IH|done|apply IH].
Qed.

Lemma rangeStatements_app pre post err e err' e' :
  rangeState pre err e = (None, err', e') ->
  rangeStatements (pre ++ post) err e = rangeStatements post err' e'.
Proof.
  intros Hpre.
  by rewrite !rangeStatements_rangeState, rangeState_app, Hpre.
Qed.

(** The loop indexes nothing: its only panic is the nil dereference. *)
Lemma rangeStatements_panic stmts err e p e' :
  rangeStatements stmts err e = (Some p, e') -> p = NilPointerDereference.
Proof.
  revert err e. induction stmts as [|s rest IH]; intros err e; [done|].
  cbn [rangeStatements].
  destruct (switchStatement s err e) as [|p0 e0|err0 e0] eqn:Hs; [apply IH| |apply IH].
  intros [= <- <-].
  destruct s; cbn in Hs; try discriminate;
    repeat match type of Hs with
      | context [let (_, _) := ?x in _] => destruct x
      | context [match ?x with _ => _ end] => destruct x
      end; congruence.
Qed.

(** The bootstrap check when authentication is enabled and there is a
    user. *)
Lemma bootstrapCheck_closed h (query : Query) e :
  AuthenticationEnabled h = true -> Users (server e) <> [] ->
  bootstrapCheck h query e =
  let e1 := mkEnv (server e) (calls e ++ [CallUsers]) (written e) in
  match query with
  | [] => inl (Some IndexOutOfRange, e1)
  | [_] => inr e1
  | s0 :: _ :: _ =>
      if isCreateUserStatement s0 then inr e1
      else inl (None, Handler_error "initial admin user does not exist"
                        StatusUnauthorized e1)
  end.
Proof.
  intros He Hu. unfold bootstrapCheck. rewrite He.
  cbn [called server]. rewrite (users_nonempty _ Hu).
  destruct query as [|s0 [|s1 rest]]; [done|done|].
  cbn [length Nat.eqb negb]. by destruct (isCreateUserStatement s0).
Qed.

(** The bootstrap check when it does not apply. *)
Lemma bootstrapCheck_open h (query : Query) e :
  AuthenticationEnabled h = false \/ Users (server e) = [] ->
  bootstrapCheck h query e =
  inr (mkEnv (server e)
         (calls e ++ (if AuthenticationEnabled h then [CallUsers] else []))
         (written e)).
Proof.
  intros Hopen. unfold bootstrapCheck.
  destruct (AuthenticationEnabled h) eqn:He.
  - destruct Hopen as [Hd | Hu]; [done|].
    cbn [called server]. by rewrite (users_empty _ Hu).
  - rewrite app_nil_r. by destruct e.
Qed.

(** C10: with authentication enabled and at least one user, the
    bootstrap check of [serveQuery] reads the first statement of every
    query that does not have exactly one statement.  On a parsed query
    without statement this read is out of range: the handler panics with
    nothing written to the response, neither a 401 nor the outcome of a
    dispatch.  On a query with at least one statement the read is in
    range: a query of one statement goes on to the loop, a longer one
    goes on or is rejected with 401 according to the kind of its first
    statement, and [serveQuery] never ends in an index panic. *)
Theorem bootstrap_check_index h e :
  AuthenticationEnabled h = true ->
  Users (server e) <> [] ->
  let e1 := mkEnv (server e) (calls e ++ [CallUsers]) (written e) in
  (forall r u, ParseQuery (Get (URL_Query r) "q") = inl [] ->
     serveQuery h r u e = (Some IndexOutOfRange, e1))
  /\ (forall s0, bootstrapCheck h [s0] e = inr e1)
  /\ (forall s0 s1 rest,
        bootstrapCheck h (s0 :: s1 :: rest) e =
        if isCreateUserStatement s0 then inr e1
        else inl (None, mkEnv (server e) (calls e ++ [CallUsers])
                    (written e ++ [("initial admin user does not exist", 401%Z)])))
  /\ (forall r u s0 rest, ParseQuery (Get (URL_Query r) "q") = inl (s0 :: rest) ->
        fst (serveQuery h r u e) <> Some IndexOutOfRange).
Proof.
  intros He Hu e1.
  split; [|split; [|split]].
  - intros r u Hp. unfold serveQuery. rewrite Hp.
    by rewrite (bootstrapCheck_closed _ _ _ He Hu).
  - intros s0. by rewrite (bootstrapCheck_closed _ _ _ He Hu).
  - intros s0 s1 rest. by rewrite (bootstrapCheck_closed _ _ _ He Hu).
  - intros r u s0 rest Hp. unfold serveQuery. rewrite Hp.
    rewrite (bootstrapCheck_closed _ _ _ He Hu). cbn zeta. fold e1.
    assert (Hloop : fst (rangeStatements (s0 :: rest) None e1)
                    <> Some IndexOutOfRange).
    { destruct (rangeStatements (s0 :: rest) None e1) as [[p|] e'] eqn:Hr; [|done].
      apply rangeStatements_panic in Hr. by subst p. }
    destruct rest as [|s1 rest]; [exact Hloop|].
    by destruct (isCreateUserStatement s0).
Qed.

(** C1, as the code has it: with authentication enabled and at least
    one user, a parsed query of more than one statement whose first
    statement is not create-user is rejected by [serveQuery] with 401
    and the text [initial admin user does not exist]; the server is
    unchanged and no method of it but the reader [Users] is called.  A
    request of such a query that carries no credentials does not reach
    [serveQuery]: the gate rejects it with 401, [username required],
    whatever its first statement is. *)
Theorem serveQuery_bootstrap_rejection h r e (query : Query) :
  AuthenticationEnabled h = true ->
  Users (server e) <> [] ->
  ParseQuery (Get (URL_Query r) "q") = inl query ->
  (1 < length query)%nat ->
  (forall u s0 rest, query = s0 :: rest -> isCreateUserStatement s0 = false ->
     serveQuery h r u e =
       (None, mkEnv (server e) (calls e ++ [CallUsers])
                (written e ++ [("initial admin user does not exist", 401%Z)])))
  /\ (Get (URL_Query r) "u" = "" -> Get (Header r) "Authorization" = "" ->
      makeAuthenticationHandler h (serveQuery h) r e =
        (None, mkEnv (server e) (calls e ++ [CallUsers])
                 (written e ++ [("username required", 401%Z)]))).
Proof.
  intros He Hu Hp Hlen. split.
  - intros u s0 rest -> Hs0. unfold serveQuery. rewrite Hp.
    rewrite (bootstrapCheck_closed _ _ _ He Hu).
    destruct rest as [|s1 rest]; [cbn in Hlen; lia|].
    by rewrite Hs0.
  - intros Hq Ha.
    rewrite (gate_closed _ _ _ _ He Hu), (getUsernameAndPassword_none _ Hq Ha).
    done.
Qed.

(** C5, what the code does: an alter-retention-policy statement whose
    duration or whose replication is nil makes the loop panic on the
    dereference.  [UpdateRetentionPolicy] is not called, but no error is
    reported to the client either, and the statements that follow are
    not run. *)
Theorem alter_retention_policy_nil_panics name db (d n : option Z) stmts err e :
  d = None \/ n = None ->
  rangeStatements (AlterRetentionPolicyStatement name db d n :: stmts) err e
  = (Some NilPointerDereference, e).
Proof.
  intros [-> | ->]; cbn [rangeStatements switchStatement]; [done|].
  by destruct d.
Qed.

(** The same statement with both fields present is the one case that
    calls [UpdateRetentionPolicy]. *)
Lemma alter_retention_policy_present name db (d n : Z) err e :
  switchStatement (AlterRetentionPolicyStatement name db (Some d) (Some n)) err e
  = let rp := mkRetentionPolicy (rpName (NewRetentionPolicy name)) d (uint32 n) in
    TurnEnd (snd (UpdateRetentionPolicy (server e) db name rp))
      (mkEnv (fst (UpdateRetentionPolicy (server e) db name rp))
         (calls e ++ [CallUpdateRetentionPolicy db name rp]) (written e)).
Proof.
  cbn [switchStatement rpName rpDuration rpReplicaN].
  by destruct (UpdateRetentionPolicy _ _ _ _).
Qed.

(** The turn of the loop on a create-retention-policy statement. *)
Lemma switchStatement_create_retention_policy name db
  (duration replication : Z) err e :
  switchStatement (CreateRetentionPolicyStatement name db duration replication) err e
  = let rp := mkRetentionPolicy (rpName (NewRetentionPolicy name)) duration
                (replication mod 2 ^ 32)%Z in
    TurnEnd (snd (CreateRetentionPolicy (server e) db rp))
      (mkEnv (fst (CreateRetentionPolicy (server e) db rp))
         (calls e ++ [CallCreateRetentionPolicy db rp]) (written e)).
Proof.
  cbn [switchStatement rpName rpDuration rpReplicaN]. fold (uint32 replication).
  unfold uint32. cbn zeta. by destruct (CreateRetentionPolicy _ _ _).
Qed.

(** The bootstrap check lets every query of one statement through. *)
Lemma bootstrapCheck_single h (s : Statement) e :
  bootstrapCheck h [s] e =
  inr (mkEnv (server e)
         (calls e ++ (if AuthenticationEnabled h then [CallUsers] else []))
         (written e)).
Proof.
  unfold bootstrapCheck. destruct (AuthenticationEnabled h).
  - cbn [called server length Nat.eqb negb].
    by destruct (0 <? length (Users (server e)))%nat.
  - rewrite app_nil_r. by destruct e.
Qed.

(** C9: whenever the loop of the dispatcher reaches a
    create-retention-policy statement, in the state [e] left by the
    statements before it, it calls [CreateRetentionPolicy] with the
    database of the statement and a policy whose [ReplicaN] is the
    replication of the statement modulo [2^32], and goes on with what
    this call returns; [serveQuery] does so for a query made of this
    statement, whatever the configuration.  This [ReplicaN] is a number
    between [0] and [2^32 - 1], which for a negative replication above
    [-2^32] is the replication plus [2^32]: a negative replication
    reaches the backend as a large unsigned count. *)
Theorem create_retention_policy_replicaN name db (duration replication : Z) :
  let rp := mkRetentionPolicy (rpName (NewRetentionPolicy name)) duration
              (replication mod 2 ^ 32)%Z in
  let stmt := CreateRetentionPolicyStatement name db duration replication in
  (forall pre post e0 err e,
     rangeState pre None e0 = (None, err, e) ->
     rangeStatements (pre ++ stmt :: post) None e0
     = rangeStatements post (snd (CreateRetentionPolicy (server e) db rp))
         (reportError (snd (CreateRetentionPolicy (server e) db rp))
            (mkEnv (fst (CreateRetentionPolicy (server e) db rp))
               (calls e ++ [CallCreateRetentionPolicy db rp]) (written e))))
  /\ (forall h r u e,
        ParseQuery (Get (URL_Query r) "q") = inl [stmt] ->
        serveQuery h r u e
        = (None,
           reportError (snd (CreateRetentionPolicy (server e) db rp))
             (mkEnv (fst (CreateRetentionPolicy (server e) db rp))
                (calls e
                 ++ (if AuthenticationEnabled h then [CallUsers] else [])
                 ++ [CallCreateRetentionPolicy db rp])
                (written e))))
  /\ (forall err e,
        switchStatement stmt err e
        = TurnEnd (snd (CreateRetentionPolicy (server e) db rp))
            (mkEnv (fst (CreateRetentionPolicy (server e) db rp))
               (calls e ++ [CallCreateRetentionPolicy db rp]) (written e)))
  /\ (0 <= rpReplicaN rp < 2 ^ 32)%Z
  /\ ((- 2 ^ 32 <= replication < 0)%Z ->
      rpReplicaN rp = (replication + 2 ^ 32)%Z).
Proof.
  intros rp stmt. split; [|split; [|split; [|split]]].
  - intros pre post e0 err e Hpre.
    rewrite (rangeStatements_app _ _ _ _ _ _ Hpre).
    cbn [rangeStatements]. unfold stmt.
    by rewrite switchStatement_create_retention_policy.
  - intros h r u e Hp. unfold serveQuery. rewrite Hp, bootstrapCheck_single.
    cbn [rangeStatements]. unfold stmt.
    rewrite switchStatement_create_retention_policy.
    cbn [server calls written]. by rewrite <- app_assoc.
  - intros err e. apply switchStatement_create_retention_policy.
  - cbn [rpReplicaN rp]. apply Z.mod_pos_bound. lia.
  - intros Hneg. cbn [rpReplicaN rp].
    symmetry. apply (Z.mod_unique _ _ (-1)); lia.
Qed.

(** The turn of the loop on a create-user statement. *)
Lemma switchStatement_create_user name password err e :
  switchStatement (CreateUserStatement name password) err e =
  let admin := negb (AdminUserExists (server e)) in
  let res := CreateUser (server e) name password admin in
  TurnEnd (snd res)
    (mkEnv (fst res)
       (calls e ++ [CallAdminUserExists; CallCreateUser name password admin])
       (written e)).
Proof.
  cbn [switchStatement]. unfold called. cbn [server calls written].
  destruct (CreateUser _ _ _ _). by rewrite <- app_assoc.
Qed.

(** C6: whenever the loop reaches a create-user statement, in the state
    [e] left by the statements before it, it asks [AdminUserExists] and
    then calls [CreateUser] with the name and the password of the
    statement and the flag [true] exactly when no admin exists in [e].
    In particular, on a server without user and hence without admin, a
    request whose query is one create-user statement passes the gate
    without credentials, calls [CreateUser] with the flag [true] and,
    when this call succeeds, returns with nothing written to the
    response. *)
Theorem create_user_first_admin :
  (forall pre name password post e0 err e,
     rangeState pre None e0 = (None, err, e) ->
     let admin := negb (AdminUserExists (server e)) in
     let res := CreateUser (server e) name password admin in
     rangeStatements (pre ++ CreateUserStatement name password :: post) None e0
     = rangeStatements post (snd res)
         (reportError (snd res)
            (mkEnv (fst res)
               (calls e ++ [CallAdminUserExists;
                            CallCreateUser name password admin])
               (written e)))
     /\ (admin = true <-> AdminUserExists (server e) = false))
  /\ (forall h r name password e s',
     Users (server e) = [] ->
     AdminUserExists (server e) = false ->
     ParseQuery (Get (URL_Query r) "q") = inl [CreateUserStatement name password] ->
     CreateUser (server e) name password true = (s', None) ->
     makeAuthenticationHandler h (serveQuery h) r e =
       (None, mkEnv s'
                (calls e
                 ++ (if AuthenticationEnabled h then [CallUsers; CallUsers] else [])
                 ++ [CallAdminUserExists; CallCreateUser name password true])
                (written e))).
Proof.
  split.
  - intros pre name password post e0 err e Hpre admin res. split.
    + rewrite (rangeStatements_app _ _ _ _ _ _ Hpre).
      cbn [rangeStatements]. by rewrite switchStatement_create_user.
    + unfold admin. by destruct (AdminUserExists (server e)).
  - intros h r name password e s' Hu Hadmin Hp Hc.
    rewrite gate_open by (by right). unfold serveQuery. rewrite Hp.
    rewrite bootstrapCheck_open by (by right).
    cbn [rangeStatements server calls written].
    rewrite switchStatement_create_user. cbn [server calls written].
    rewrite Hadmin. cbn [negb]. rewrite Hc. cbn [fst snd reportError].
    rewrite <- !app_assoc. by destruct (AuthenticationEnabled h).
Qed.

(** The loop does not stop at an error, whatever the server is: after a
    create-database statement, failed or not, the next one is run. *)
Lemma rangeStatements_goes_on a b e :
  calls (snd (rangeStatements
                [CreateDatabaseStatement a; CreateDatabaseStatement b] None e))
  = calls e ++ [CallCreateDatabase a; CallCreateDatabase b].
Proof.
  cbn [rangeStatements switchStatement].
  destruct (CreateDatabase (server e) a) as [s1 err1].
  assert (Hc : calls (reportError err1 (called (CallCreateDatabase a) s1 e))
               = calls e ++ [CallCreateDatabase a]) by (by destruct err1).
  destruct (CreateDatabase _ b) as [s2 err2].
  destruct err2; cbn [snd reportError Handler_error called calls];
    rewrite Hc, <- app_assoc; done.
Qed.

End Dispatcher.

(** ** The handler on the reference server *)

(** C2, what the code does: the loop reports the error of a failed
    statement and goes on.  On the query [CREATE DATABASE] without name,
    [CREATE DATABASE b], [DROP DATABASE nope] the first statement fails,
    the two others are dispatched all the same, in order: [b] is
    created, and a second error is written for the third statement. *)
Theorem serveQuery_continues_after_error :
  serveQuery (lib := Ref.parsing Ref.failingFirst) Ref.open Ref.anonymous None
    (Ref.start Ref.empty)
  = (None,
     mkEnv (Ref.mkState [] ["b"] [])
       [CallCreateDatabase ""; CallCreateDatabase "b"; CallDeleteDatabase "nope"]
       [("error executing query: database name required", 400%Z);
        ("error executing query: database not found", 400%Z)]).
Proof. vm_compute. reflexivity. Qed.

(** The alter statement without duration through [serveQuery]: the
    handler panics, the response is empty. *)
Example serveQuery_alter_without_duration :
  serveQuery (lib := Ref.parsing Ref.alterWithoutDuration) Ref.open
    Ref.anonymous None (Ref.start Ref.empty)
  = (Some NilPointerDereference, Ref.start Ref.empty).
Proof. vm_compute. reflexivity. Qed.

(** C1 fails on a query of two statements whose first statement is
    create-user: with authentication enabled and the admin lisa in the
    directory, [serveQuery] does not reject it but runs both statements;
    and the same query without credentials is rejected by the gate with
    [username required], not with the text of the bootstrap check. *)
Lemma serveQuery_create_user_first_not_rejected :
  AuthenticationEnabled Ref.secured = true
  /\ Users (server (Ref.start Ref.lisa)) <> []
  /\ ParseQuery (Library := Ref.parsing Ref.createUserThenDatabase)
       (Get (URL_Query Ref.asLisa) "q") = inl Ref.createUserThenDatabase
  /\ (1 < length Ref.createUserThenDatabase)%nat
  /\ serveQuery (lib := Ref.parsing Ref.createUserThenDatabase) Ref.secured
       Ref.asLisa (Some Ref.userLisa) (Ref.start Ref.lisa)
     = (None,
        mkEnv (Ref.mkState [Ref.userLisa; Ref.userMaeve] ["db"] [])
          [CallUsers; CallAdminUserExists; CallCreateUser "maeve" "pass" false;
           CallCreateDatabase "db"]
          [])
  /\ serveQuery (lib := Ref.parsing Ref.createUserThenDatabase) Ref.secured
       Ref.asLisa (Some Ref.userLisa) (Ref.start Ref.lisa)
     <> (None,
         mkEnv Ref.lisa [CallUsers]
           [("initial admin user does not exist", 401%Z)])
  /\ Ref.query_route Ref.secured Ref.createUserThenDatabase Ref.anonymous
       (Ref.start Ref.lisa)
     = (None, mkEnv Ref.lisa [CallUsers] [("username required", 401%Z)]).
Proof.
  repeat split; vm_compute; (reflexivity || discriminate).
Qed.

(** C8 fails on the text of the answer: for the header [BadValue], of
    one field, the extractor and the gate say [invalid Basic
    Authentication header], not [invalid authentication header]. *)
Lemma malformed_header_message :
  ~ (Get (URL_Query Ref.badHeader) "u" <> ""
     /\ Get (URL_Query Ref.badHeader) "p" <> "")
  /\ Get (Header Ref.badHeader) "Authorization" = "BadValue"
  /\ length (Split "BadValue" " ") = 1%nat
  /\ AuthenticationEnabled Ref.secured = true
  /\ Users (server (Ref.start Ref.lisa)) <> []
  /\ Ref.query_route Ref.secured [] Ref.badHeader (Ref.start Ref.lisa)
     = (None,
        mkEnv Ref.lisa [CallUsers]
          [("invalid Basic Authentication header", 401%Z)])
  /\ Ref.query_route Ref.secured [] Ref.badHeader (Ref.start Ref.lisa)
     <> (None,
         mkEnv Ref.lisa [CallUsers] [("invalid authentication header", 401%Z)]).
Proof.
  split.
  { intros [Hu _]. apply Hu. vm_compute. reflexivity. }
  repeat split; vm_compute; (reflexivity || discriminate).
Qed.

(** ** The theorems at concrete requests *)

(** C7 at a request with [u=lisa&p=password] and a header. *)
Lemma getUsernameAndPassword_query_params_witness :
  Get (URL_Query Ref.bothCarriers) "u" <> ""
  /\ Get (URL_Query Ref.bothCarriers) "p" <> ""
  /\ getUsernameAndPassword (lib := Ref.parsing []) Ref.bothCarriers
     = ("lisa", "password", None)
  /\ forall hdr : Values,
       getUsernameAndPassword (lib := Ref.parsing [])
         (mkRequest (URL_Query Ref.bothCarriers) hdr)
       = getUsernameAndPassword (lib := Ref.parsing []) Ref.bothCarriers.
Proof.
  assert (Hu : Get (URL_Query Ref.bothCarriers) "u" <> "")
    by (vm_compute; discriminate).
  assert (Hp : Get (URL_Query Ref.bothCarriers) "p" <> "")
    by (vm_compute; discriminate).
  split; [exact Hu|]. split; [exact Hp|].
  exact (getUsernameAndPassword_query_params (lib := Ref.parsing [])
           Ref.bothCarriers Hu Hp).
Defined.

(** C3 at a request with a wrong password for lisa. *)
Lemma makeAuthenticationHandler_enabled_witness :
  AuthenticationEnabled Ref.secured = true
  /\ Users (server (Ref.start Ref.lisa)) <> []
  /\ getUsernameAndPassword (lib := Ref.parsing []) Ref.wrongPassword
     = ("lisa", "wrong", None)
  /\ Authenticate Ref.lisa "lisa" "wrong" = inr "invalid password"
  /\ Ref.query_route Ref.secured [] Ref.wrongPassword (Ref.start Ref.lisa)
     = (None,
        mkEnv Ref.lisa [CallUsers; CallAuthenticate "lisa" "wrong"]
          [("invalid password", 401%Z)]).
Proof.
  assert (He : AuthenticationEnabled Ref.secured = true) by reflexivity.
  assert (Hu : Users (server (Ref.start Ref.lisa)) <> [])
    by (vm_compute; discriminate).
  assert (Hx : getUsernameAndPassword (lib := Ref.parsing []) Ref.wrongPassword
               = ("lisa", "wrong", None)) by (vm_compute; reflexivity).
  assert (Ha : Authenticate Ref.lisa "lisa" "wrong" = inr "invalid password")
    by (vm_compute; reflexivity).
  split; [exact He|]. split; [exact Hu|]. split; [exact Hx|]. split; [exact Ha|].
  destruct (makeAuthenticationHandler_enabled (lib := Ref.parsing [])
              Ref.secured Ref.wrongPassword (Ref.start Ref.lisa) He Hu)
    as (_ & _ & Hreject & _).
  apply (Hreject "lisa" "wrong" "invalid password" Hx); [discriminate | exact Ha].
Defined.

(** C4 at the secured handler on the empty server. *)
Lemma makeAuthenticationHandler_open_witness :
  (AuthenticationEnabled Ref.secured = false
   \/ Users (server (Ref.start Ref.empty)) = [])
  /\ (forall q r,
        Ref.query_route Ref.secured q r (Ref.start Ref.empty)
        = serveQuery (lib := Ref.parsing q) Ref.secured r None
            (mkEnv Ref.empty [CallUsers] [])).
Proof.
  assert (Hopen : AuthenticationEnabled Ref.secured = false
                  \/ Users (server (Ref.start Ref.empty)) = [])
    by (right; reflexivity).
  split; [exact Hopen|]. intros q r.
  destruct (makeAuthenticationHandler_open (lib := Ref.parsing q)
              Ref.secured (Ref.start Ref.empty) Hopen) as (Hrun & _ & _).
  exact (Hrun (serveQuery (lib := Ref.parsing q) Ref.secured) r).
Defined.

(** C8 at the header [BadValue]. *)
Lemma malformed_header_unauthorized_witness :
  ~ (Get (URL_Query Ref.badHeader) "u" <> ""
     /\ Get (URL_Query Ref.badHeader) "p" <> "")
  /\ Get (Header Ref.badHeader) "Authorization" <> ""
  /\ length (Split (Get (Header Ref.badHeader) "Authorization") " ") <> 2%nat
  /\ getUsernameAndPassword (lib := Ref.parsing []) Ref.badHeader
     = ("", "", Some "invalid Basic Authentication header")
  /\ Ref.query_route Ref.secured [] Ref.badHeader (Ref.start Ref.lisa)
     = (None,
        mkEnv Ref.lisa [CallUsers]
          [("invalid Basic Authentication header", 401%Z)]).
Proof.
  assert (Hq : ~ (Get (URL_Query Ref.badHeader) "u" <> ""
                  /\ Get (URL_Query Ref.badHeader) "p" <> "")).
  { intros [Hu _]. apply Hu. vm_compute. reflexivity. }
  assert (Ha : Get (Header Ref.badHeader) "Authorization" <> "")
    by (vm_compute; discriminate).
  assert (Hf : length (Split (Get (Header Ref.badHeader) "Authorization") " ")
               <> 2%nat) by (vm_compute; discriminate).
  split; [exact Hq|]. split; [exact Ha|]. split; [exact Hf|].
  destruct (malformed_header_unauthorized (lib := Ref.parsing [])
              Ref.secured Ref.badHeader (Ref.start Ref.lisa) Hq Ha Hf)
    as [Hx Hgate].
  split; [exact Hx|].
  apply Hgate; [reflexivity | vm_compute; discriminate].
Defined.

(** C1, amended, at a query of two create-database statements. *)
Lemma serveQuery_bootstrap_rejection_witness :
  AuthenticationEnabled Ref.secured = true
  /\ Users (server (Ref.start Ref.lisa)) <> []
  /\ ParseQuery (Library := Ref.parsing Ref.twoDatabases)
       (Get (URL_Query Ref.asLisa) "q") = inl Ref.twoDatabases
  /\ (1 < length Ref.twoDatabases)%nat
  /\ serveQuery (lib := Ref.parsing Ref.twoDatabases) Ref.secured Ref.asLisa
       (Some Ref.userLisa) (Ref.start Ref.lisa)
     = (None,
        mkEnv Ref.lisa [CallUsers]
          [("initial admin user does not exist", 401%Z)]).
Proof.
  assert (He : AuthenticationEnabled Ref.secured = true) by reflexivity.
  assert (Hu : Users (server (Ref.start Ref.lisa)) <> [])
    by (vm_compute; discriminate).
  assert (Hp : ParseQuery (Library := Ref.parsing Ref.twoDatabases)
                 (Get (URL_Query Ref.asLisa) "q") = inl Ref.twoDatabases)
    by reflexivity.
  assert (Hlen : (1 < length Ref.twoDatabases)%nat) by (cbn; lia).
  split; [exact He|]. split; [exact Hu|]. split; [exact Hp|]. split; [exact Hlen|].
  destruct (serveQuery_bootstrap_rejection (lib := Ref.parsing Ref.twoDatabases)
              Ref.secured Ref.asLisa (Ref.start Ref.lisa) Ref.twoDatabases
              He Hu Hp Hlen) as [Hreject _].
  exact (Hreject (Some Ref.userLisa) (CreateDatabaseStatement "a")
           [CreateDatabaseStatement "b"] eq_refl eq_refl).
Defined.

(** C5 at an alter statement without duration, followed by a
    create-database statement that is not run. *)
Lemma alter_retention_policy_nil_panics_witness :
  (@None Z = None \/ Some 1%Z = None)
  /\ rangeStatements (lib := Ref.parsing [])
       [AlterRetentionPolicyStatement "rp" "db" None (Some 1%Z);
        CreateDatabaseStatement "db"]
       None (Ref.start Ref.empty)
     = (Some NilPointerDereference, Ref.start Ref.empty).
Proof.
  assert (Hnil : @None Z = None \/ Some 1%Z = None) by (left; reflexivity).
  split; [exact Hnil|].
  exact (alter_retention_policy_nil_panics (lib := Ref.parsing [])
           "rp" "db" None (Some 1%Z) [CreateDatabaseStatement "db"] None
           (Ref.start Ref.empty) Hnil).
Defined.

(** C6 at the bootstrap of the empty server: orla becomes admin. *)
Lemma create_user_first_admin_witness :
  Users (server (Ref.start Ref.empty)) = []
  /\ AdminUserExists (server (Ref.start Ref.empty)) = false
  /\ CreateUser Ref.empty "orla" "pass" true
     = (Ref.mkState [Ref.userOrla] [] [], None)
  /\ Ref.query_route Ref.secured Ref.createOrla Ref.anonymous
       (Ref.start Ref.empty)
     = (None,
        mkEnv (Ref.mkState [Ref.userOrla] [] [])
          [CallUsers; CallUsers; CallAdminUserExists;
           CallCreateUser "orla" "pass" true]
          []).
Proof.
  assert (Hc : CreateUser Ref.empty "orla" "pass" true
               = (Ref.mkState [Ref.userOrla] [] [], None))
    by (vm_compute; reflexivity).
  split; [reflexivity|]. split; [reflexivity|]. split; [exact Hc|].
  destruct (create_user_first_admin (api := Ref.api)
              (lib := Ref.parsing Ref.createOrla)) as [_ Hboot].
  exact (Hboot Ref.secured Ref.anonymous "orla" "pass" (Ref.start Ref.empty)
           (Ref.mkState [Ref.userOrla] [] []) eq_refl eq_refl eq_refl Hc).
Defined.

(** C9 at the replication [-1], through [serveQuery], on a server with
    the database [db]. *)
Lemma create_retention_policy_replicaN_witness :
  (- 2 ^ 32 <= -1 < 0)%Z
  /\ ParseQuery
       (Library := Ref.parsing [CreateRetentionPolicyStatement "rp" "db" 3600 (-1)])
       (Get (URL_Query Ref.anonymous) "q")
     = inl [CreateRetentionPolicyStatement "rp" "db" 3600 (-1)]
  /\ serveQuery
       (lib := Ref.parsing [CreateRetentionPolicyStatement "rp" "db" 3600 (-1)])
       Ref.secured Ref.anonymous None (Ref.start (Ref.mkState [] ["db"] []))
     = (None,
        mkEnv
          (Ref.mkState [] ["db"] [("db", mkRetentionPolicy "rp" 3600 4294967295)])
          [CallUsers;
           CallCreateRetentionPolicy "db" (mkRetentionPolicy "rp" 3600 4294967295)]
          [])
  /\ rpReplicaN (mkRetentionPolicy "rp" 3600 ((-1) mod 2 ^ 32)) = 4294967295%Z.
Proof.
  assert (Hneg : (- 2 ^ 32 <= -1 < 0)%Z) by lia.
  assert (Hp : ParseQuery
       (Library := Ref.parsing [CreateRetentionPolicyStatement "rp" "db" 3600 (-1)])
       (Get (URL_Query Ref.anonymous) "q")
     = inl [CreateRetentionPolicyStatement "rp" "db" 3600 (-1)]) by reflexivity.
  split; [exact Hneg|]. split; [exact Hp|].
  destruct (create_retention_policy_replicaN (api := Ref.api)
              (lib := Ref.parsing [CreateRetentionPolicyStatement "rp" "db" 3600 (-1)])
              "rp" "db" 3600 (-1))
    as (_ & Hserve & _ & _ & Hwrap).
  split; [|exact (Hwrap Hneg)].
  exact (Hserve Ref.secured Ref.anonymous None
           (Ref.start (Ref.mkState [] ["db"] [])) Hp).
Defined.

(** C10 on the server with the admin lisa. *)
Lemma bootstrap_check_index_witness :
  AuthenticationEnabled Ref.secured = true
  /\ Users (server (Ref.start Ref.lisa)) <> []
  /\ serveQuery (lib := Ref.parsing []) Ref.secured Ref.asLisa
       (Some Ref.userLisa) (Ref.start Ref.lisa)
     = (Some IndexOutOfRange, mkEnv Ref.lisa [CallUsers] []).
Proof.
  assert (He : AuthenticationEnabled Ref.secured = true) by reflexivity.
  assert (Hu : Users (server (Ref.start Ref.lisa)) <> [])
    by (vm_compute; discriminate).
  split; [exact He|]. split; [exact Hu|].
  destruct (bootstrap_check_index (lib := Ref.parsing [])
              Ref.secured (Ref.start Ref.lisa) He Hu) as (Hempty & _).
  exact (Hempty Ref.asLisa (Some Ref.userLisa) eq_refl).
Defined.

(** ** [strings.Split] on one separator *)

Section SplitFacts.

Implicit Types (s a b : string) (sep : ascii).

(** The number of bytes of [s] equal to [sep]. *)
Local Abbreviation occurrences sep s :=
  (count_occ ascii_dec (list_ascii_of_string s) sep).

Lemma Split_nonempty s sep : Split s sep <> [].
Proof.
  destruct s as [|c rest]; cbn [Split]; [done|].
  destruct (Ascii.eqb c sep); [done|]. by destruct (Split rest sep).
Qed.

(** There is one field more than there are separators. *)
Lemma Split_length s sep : length (Split s sep) = S (occurrences sep s).
Proof.
  induction s as [|c rest IH]; [done|].
  cbn [Split list_ascii_of_string count_occ].
  destruct (Ascii.eqb_spec c sep) as [->|Hne].
  - destruct (ascii_dec sep sep); [|done]. cbn [length]. by rewrite IH.
  - destruct (ascii_dec c sep); [done|].
    destruct (Split rest sep) eqn:Hs; [by apply Split_nonempty in Hs|].
    by rewrite <- IH.
Qed.

Lemma Split_no_separator a sep :
  ~ In sep (list_ascii_of_string a) -> Split a sep = [a].
Proof.
  induction a as [|c rest IH]; intros Hin; [done|].
  cbn [Split]. destruct (Ascii.eqb_spec c sep) as [->|Hne].
  - exfalso. apply Hin. by left.
  - rewrite IH; [done|]. intros Hr. apply Hin. by right.
Qed.

Lemma Split_first_field a b sep :
  ~ In sep (list_ascii_of_string a) ->
  Split (a ++ String sep b) sep = a :: Split b sep.
Proof.
  induction a as [|c rest IH]; intros Hin.
  - change (Split (String sep b) sep = "" :: Split b sep).
    cbn [Split]. by rewrite Ascii.eqb_refl.
  - change (Split (String c (rest ++ String sep b)) sep
            = String c rest :: Split b sep).
    cbn [Split]. destruct (Ascii.eqb_spec c sep) as [->|Hne].
    + exfalso. apply Hin. by left.
    + rewrite IH; [done|]. intros Hr. apply Hin. by right.
Qed.

Lemma Split_two_fields a b sep :
  ~ In sep (list_ascii_of_string a) ->
  ~ In sep (list_ascii_of_string b) ->
  Split (a ++ String sep b) sep = [a; b].
Proof.
  intros Ha Hb. by rewrite Split_first_field, Split_no_separator.
Qed.

End SplitFacts.

(** ** The extractor on the Authorization header *)

Section ExtractorHeader.

Local Open Scope string_scope.

Context {Server User : Type} {api : ServerAPI Server User} {lib : Library}.

Implicit Types (r : Request) (scheme payload user pass bs : string).
Implicit Types (h : Handler) (e : Env Server).
Implicit Types (fn : HandlerFunc (Server := Server) (User := User)).

(** The fields of a header made of a scheme, a space and a rest. *)
Lemma Split_authorization scheme payload :
  ~ In " "%char (list_ascii_of_string scheme) ->
  Split (scheme ++ " " ++ payload) " " = scheme :: Split payload " ".
Proof.
  intros Hs. change (scheme ++ " " ++ payload)%string
    with (scheme ++ String " "%char payload)%string.
  by apply Split_first_field.
Qed.

Lemma authorization_not_empty scheme payload : scheme ++ " " ++ payload <> "".
Proof.
  change (scheme ++ " " ++ payload)%string
    with (scheme ++ String " "%char payload)%string.
  by destruct scheme.
Qed.

(** The extractor once the query values are not both there: what it
    does with the header, in terms of the fields. *)
Lemma getUsernameAndPassword_by_header r :
  ~ (Get (URL_Query r) "u" <> "" /\ Get (URL_Query r) "p" <> "") ->
  getUsernameAndPassword r =
  let auth := Get (Header r) "Authorization" in
  if auth =? "" then ("", "", None)
  else
    let fields := Split auth " " in
    if negb (length fields =? 2)%nat then
      ("", "", Some "invalid Basic Authentication header")
    else
      match DecodeString (nth 1 fields "") with
      | inr _ => ("", "", Some "invalid Base64 encoding")
      | inl bs =>
          let fields := Split bs ":" in
          if negb (length fields =? 2)%nat then
            ("", "", Some "invalid Basic Authentication value")
          else (nth 0 fields "", nth 1 fields "", None)
      end.
Proof.
  intros Hq. unfold getUsernameAndPassword.
  destruct (Get (URL_Query r) "u" =? "") eqn:Eu;
    destruct (Get (URL_Query r) "p" =? "") eqn:Ep; cbn [negb andb]; try done.
  exfalso. apply Hq. split; by apply String.eqb_neq.
Qed.

(** A Basic Authentication header gives back the pair it encodes: when
    the header is a scheme, one space and a payload without space, and
    the payload decodes to [user:pass] with no colon in [user] nor in
    [pass], the extractor returns [user] and [pass] and no error. *)
Theorem basic_header_credentials r scheme payload user pass :
  ~ (Get (URL_Query r) "u" <> "" /\ Get (URL_Query r) "p" <> "") ->
  Get (Header r) "Authorization" = scheme ++ " " ++ payload ->
  ~ In " "%char (list_ascii_of_string scheme) ->
  ~ In " "%char (list_ascii_of_string payload) ->
  DecodeString payload = inl (user ++ ":" ++ pass) ->
  ~ In ":"%char (list_ascii_of_string user) ->
  ~ In ":"%char (list_ascii_of_string pass) ->
  getUsernameAndPassword r = (user, pass, None).
Proof.
  intros Hq Ha Hs Hp Hd Hu Hw.
  rewrite (getUsernameAndPassword_by_header _ Hq), Ha. cbn zeta.
  rewrite (eqb_empty_false _ (authorization_not_empty scheme payload)).
  rewrite (Split_authorization _ _ Hs), (Split_no_separator _ _ Hp).
  cbn [length Nat.eqb negb nth]. rewrite Hd.
  change (user ++ ":" ++ pass)%string with (user ++ String ":"%char pass)%string.
  by rewrite (Split_two_fields _ _ _ Hu Hw).
Qed.

(** The scheme of the header is not looked at: two requests with the
    same query values whose headers differ in the word before the first
    space only, whatever follows it, have the same credentials or the
    same error. *)
Theorem authorization_scheme_ignored r1 r2 scheme1 scheme2 payload :
  URL_Query r1 = URL_Query r2 ->
  Get (Header r1) "Authorization" = scheme1 ++ " " ++ payload ->
  Get (Header r2) "Authorization" = scheme2 ++ " " ++ payload ->
  ~ In " "%char (list_ascii_of_string scheme1) ->
  ~ In " "%char (list_ascii_of_string scheme2) ->
  getUsernameAndPassword r1 = getUsernameAndPassword r2.
Proof.
  intros Hq H1 H2 Hs1 Hs2. unfold getUsernameAndPassword.
  rewrite Hq, H1, H2.
  rewrite (eqb_empty_false _ (authorization_not_empty scheme1 payload)).
  rewrite (eqb_empty_false _ (authorization_not_empty scheme2 payload)).
  by rewrite (Split_authorization _ _ Hs1), (Split_authorization _ _ Hs2).
Qed.

(** A decoded payload must hold exactly one colon: with none, or with
    more than one, as when the password itself holds a colon, the
    extractor fails with [invalid Basic Authentication value]. *)
Theorem basic_value_one_colon r scheme payload bs :
  ~ (Get (URL_Query r) "u" <> "" /\ Get (URL_Query r) "p" <> "") ->
  Get (Header r) "Authorization" = scheme ++ " " ++ payload ->
  ~ In " "%char (list_ascii_of_string scheme) ->
  ~ In " "%char (list_ascii_of_string payload) ->
  DecodeString payload = inl bs ->
  count_occ ascii_dec (list_ascii_of_string bs) ":"%char <> 1%nat ->
  getUsernameAndPassword r = ("", "", Some "invalid Basic Authentication value").
Proof.
  intros Hq Ha Hs Hp Hd Hc.
  rewrite (getUsernameAndPassword_by_header _ Hq), Ha. cbn zeta.
  rewrite (eqb_empty_false _ (authorization_not_empty scheme payload)).
  rewrite (Split_authorization _ _ Hs), (Split_no_separator _ _ Hp).
  cbn [length Nat.eqb negb nth]. rewrite Hd, Split_length.
  destruct (Nat.eqb_spec (S (count_occ ascii_dec (list_ascii_of_string bs) ":"%char)) 2)
    as [Heq|Hne]; [lia|done].
Qed.

(** The query values count as a pair only: when [u] or [p] is missing,
    the other one is dropped and the credentials are those of the
    header alone.  So a request with [u] and without [p] and without
    header reaches a closed gate as a request without username. *)
Theorem partial_query_credentials h fn r e :
  ~ (Get (URL_Query r) "u" <> "" /\ Get (URL_Query r) "p" <> "") ->
  getUsernameAndPassword r = getUsernameAndPassword (mkRequest ∅ (Header r))
  /\ (Get (Header r) "Authorization" = "" ->
      AuthenticationEnabled h = true ->
      Users (server e) <> [] ->
      makeAuthenticationHandler h fn r e =
        (None, mkEnv (server e) (calls e ++ [CallUsers])
                 (written e ++ [("username required", 401%Z)]))).
Proof.
  intros Hq. split.
  - rewrite (getUsernameAndPassword_by_header _ Hq).
    by rewrite getUsernameAndPassword_by_header by (intros [Hu _]; by apply Hu).
  - intros Ha He Hu.
    rewrite (gate_closed _ _ _ _ He Hu), (getUsernameAndPassword_by_header _ Hq), Ha.
    done.
Qed.

End ExtractorHeader.

(** ** More on the gate and on the loop *)

Section GateAndLoop.

Context {Server User : Type} {api : ServerAPI Server User} {lib : Library}.

Implicit Types (h : Handler) (r : Request) (e : Env Server) (err : error).
Implicit Types (fn : HandlerFunc (Server := Server) (User := User)).
Implicit Types (stmts : list Statement).

(** Query credentials reach [Authenticate] as they are: with the gate
    closed and [u] and [p] both present, the gate calls [Authenticate]
    with exactly this pair, whatever the header holds, and the outcome
    of this call alone decides between the 401 and the wrapped handler. *)
Theorem gate_query_credentials h fn r e :
  AuthenticationEnabled h = true ->
  Users (server e) <> [] ->
  Get (URL_Query r) "u" <> "" ->
  Get (URL_Query r) "p" <> "" ->
  let u := Get (URL_Query r) "u" in
  let p := Get (URL_Query r) "p" in
  let e2 := mkEnv (server e) (calls e ++ [CallUsers; CallAuthenticate u p])
              (written e) in
  makeAuthenticationHandler h fn r e =
  match Authenticate (server e) u p with
  | inr msg => (None, mkEnv (server e) (calls e2) (written e ++ [(msg, 401%Z)]))
  | inl user => fn r (Some user) e2
  end.
Proof.
  intros He Hu Hqu Hqp. cbn zeta.
  rewrite (gate_closed _ _ _ _ He Hu).
  assert (Hx : getUsernameAndPassword r
               = (Get (URL_Query r) "u", Get (URL_Query r) "p", None)).
  { unfold getUsernameAndPassword.
    by rewrite (eqb_empty_false _ Hqu), (eqb_empty_false _ Hqp). }
  rewrite Hx. cbn zeta. by rewrite (eqb_empty_false _ Hqu).
Qed.

(** The gate by itself changes nothing: on every request, in every
    configuration, it leaves the server as it is and calls at most the
    two readers [Users] and [Authenticate]; then either it writes one
    401 and returns, or it has written nothing and hands over to the
    wrapped handler, once. *)
Theorem gate_frame h fn r e :
  exists cs : list Call,
    Forall (fun c => c = CallUsers \/ isAuthenticate c = true) cs
    /\ ((exists msg,
           makeAuthenticationHandler h fn r e =
             (None, mkEnv (server e) (calls e ++ cs)
                      (written e ++ [(msg, 401%Z)])))
        \/ (exists u,
              makeAuthenticationHandler h fn r e =
                fn r u (mkEnv (server e) (calls e ++ cs) (written e)))).
Proof.
  destruct (AuthenticationEnabled h) eqn:He.
  - destruct (Users (server e)) as [|u0 us] eqn:Hu.
    + exists [CallUsers]. split; [repeat constructor; by left|].
      right. exists None. rewrite gate_open by (by right). by rewrite He.
    + assert (Hne : Users (server e) <> []) by (by rewrite Hu).
      rewrite (gate_closed _ _ _ _ He Hne).
      destruct (getUsernameAndPassword r) as [[u p] [msg|]].
      * exists [CallUsers]. split; [repeat constructor; by left|].
        left. by exists msg.
      * destruct (u =? "").
        -- exists [CallUsers]. split; [repeat constructor; by left|].
           left. by exists "username required".
        -- exists [CallUsers; CallAuthenticate u p].
           split; [repeat constructor; by (left + right)|]. cbn zeta.
           destruct (Authenticate (server e) u p) as [user|msg].
           ++ right. by exists (Some user).
           ++ left. by exists msg.
  - exists []. split; [constructor|].
    right. exists None. rewrite gate_open by (by left). by rewrite He.
Qed.

(** The identity that the gate resolves plays no part in a query: after
    a successful authentication the route [/query] does what
    [serveQuery] does for the nil user.  No statement is refused for a
    lack of privilege of the user. *)
Theorem query_ignores_identity h r e u p user :
  AuthenticationEnabled h = true ->
  Users (server e) <> [] ->
  getUsernameAndPassword r = (u, p, None) ->
  u <> "" ->
  Authenticate (server e) u p = inl user ->
  makeAuthenticationHandler h (serveQuery h) r e =
  serveQuery h r None
    (mkEnv (server e) (calls e ++ [CallUsers; CallAuthenticate u p]) (written e)).
Proof.
  intros He Hu Hx Hne Ha.
  rewrite (gate_closed _ _ _ _ He Hu), Hx, (eqb_empty_false _ Hne).
  cbn zeta. by rewrite Ha.
Qed.

(** Without users, or without authentication, the route [/query] is the
    loop: every statement of every query is run for a request without
    credentials, however many statements there are and whatever the
    first one is. *)
Theorem bootstrap_runs_every_query h r e (query : Query) :
  AuthenticationEnabled h = false \/ Users (server e) = [] ->
  ParseQuery (Get (URL_Query r) "q") = inl query ->
  makeAuthenticationHandler h (serveQuery h) r e =
  rangeStatements query None
    (mkEnv (server e)
       (calls e ++ (if AuthenticationEnabled h then [CallUsers; CallUsers] else []))
       (written e)).
Proof.
  intros Hopen Hp. rewrite (gate_open _ _ _ _ Hopen).
  unfold serveQuery. rewrite Hp, bootstrapCheck_open by done.
  cbn [server calls written]. rewrite <- app_assoc.
  by destruct (AuthenticationEnabled h).
Qed.

(** What a turn of the loop leaves: nothing written, and calls that are
    neither [Users] nor [Authenticate]. *)
Lemma switchStatement_log (s : Statement) err e :
  match switchStatement s err e with
  | TurnContinue => True
  | TurnPanic _ e' => e' = e
  | TurnEnd _ e' =>
      written e' = written e
      /\ exists cs, calls e' = calls e ++ cs
           /\ Forall (fun c => c <> CallUsers /\ isAuthenticate c = false) cs
  end.
Proof.
  destruct s; cbn [switchStatement]; try done;
    repeat match goal with
      | |- context [let (_, _) := ?x in _] => destruct x
      | |- context [match ?x with Some _ => _ | None => _ end] => destruct x
      end; try done; unfold called; cbn [server calls written];
    (split; [done|]).
  all: try (eexists; split; [reflexivity|]; by repeat constructor).
  - exists [CallAdminUserExists; CallCreateUser Name Password
                                   (negb (AdminUserExists (server e)))].
    split; [by rewrite <- app_assoc | by repeat constructor].
  - exists []. split; [by rewrite app_nil_r | constructor].
Qed.

(** The loop only adds to the log and to the response.  It never asks
    for the users and never authenticates, and all it writes are
    answers 400 whose text starts with [error executing query: ]. *)
Theorem rangeStatements_log stmts err e :
  exists (cs : list Call) (ws : list (string * Z)),
    calls (snd (rangeStatements stmts err e)) = calls e ++ cs
    /\ written (snd (rangeStatements stmts err e)) = written e ++ ws
    /\ Forall (fun c => c <> CallUsers /\ isAuthenticate c = false) cs
    /\ Forall (fun w => snd w = 400%Z
                        /\ exists msg, fst w = ("error executing query: " ++ msg)%string) ws.
Proof.
  revert err e. induction stmts as [|s rest IH]; intros err e.
  - exists [], []. cbn. rewrite !app_nil_r. by repeat split.
  - cbn [rangeStatements]. pose proof (switchStatement_log s err e) as Hturn.
    destruct (switchStatement s err e) as [|p e'|err' e'].
    + apply IH.
    + subst e'. exists [], []. cbn. rewrite !app_nil_r. by repeat split.
    + destruct Hturn as (Hw & cs1 & Hc & Hcs1).
      destruct (IH err' (reportError err' e')) as (cs & ws & Hcs & Hws & Fc & Fw).
      destruct err' as [msg|]; cbn [reportError Handler_error calls written] in *.
      * exists (cs1 ++ cs), ((("error executing query: " ++ msg)%string, 400%Z) :: ws).
        rewrite Hcs, Hws, Hc, Hw, <- !app_assoc.
        repeat split; [by apply Forall_app|].
        constructor; [|done]. split; [done|by exists msg].
      * exists (cs1 ++ cs), ws. rewrite Hcs, Hws, Hc, Hw, <- !app_assoc.
        repeat split; [by apply Forall_app|done].
Qed.

End GateAndLoop.

(** ** Queries as a whole *)

Section Queries.

Context {Server User : Type} {api : ServerAPI Server User} {lib : Library}.

Implicit Types (h : Handler) (r : Request) (e : Env Server) (err : error).
Implicit Types (stmts : list Statement).

(** The statements that the switch sends back to the loop at once. *)
Local Abbreviation passedOver :=
  [SelectStatement; DropSeriesStatement; ListSeriesStatement;
   ListMeasurementsStatement; ListTagKeysStatement; ListTagValuesStatement;
   ListFieldKeysStatement; ListFieldValuesStatement; GrantStatement;
   RevokeStatement; CreateContinuousQueryStatement;
   DropContinuousQueryStatement; ListContinuousQueriesStatement].

(** A query of select, list, grant, revoke, drop-series and
    continuous-query statements does nothing: the loop calls no method
    of the server and writes nothing, and it leaves alone an error
    pending from before.  With authentication disabled [serveQuery]
    returns for such a query with the environment untouched. *)
Theorem passed_over_statements stmts :
  Forall (fun s => In s passedOver) stmts ->
  (forall err e, rangeState stmts err e = (None, err, e))
  /\ (forall h r u e,
        AuthenticationEnabled h = false ->
        ParseQuery (Get (URL_Query r) "q") = inl stmts ->
        serveQuery h r u e = (None, e)).
Proof.
  intros Hall.
  assert (Hloop : forall err e, rangeState stmts err e = (None, err, e)).
  { induction Hall as [|s rest Hs _ IH]; intros err e; [done|].
    cbn [rangeState].
    assert (Hturn : switchStatement s err e = TurnContinue).
    { cbn [In] in Hs. by repeat (destruct Hs as [<- | Hs]; [done|]). }
    rewrite Hturn. apply IH. }
  split; [exact Hloop|].
  intros h r u e He Hp. unfold serveQuery.
  rewrite Hp, bootstrapCheck_open by (by left). rewrite He, app_nil_r.
  rewrite rangeStatements_rangeState, Hloop. by destruct e.
Qed.

(** Two create-user statements in one query on a server without admin:
    when the first creation succeeds and leaves an admin, the second
    user is created with the flag [false].  The flag is read anew for
    each statement, from the server as the statement before left it. *)
Theorem second_create_user_not_admin n1 p1 n2 p2 e s1 :
  AdminUserExists (server e) = false ->
  CreateUser (server e) n1 p1 true = (s1, None) ->
  AdminUserExists s1 = true ->
  rangeStatements [CreateUserStatement n1 p1; CreateUserStatement n2 p2] None e
  = (None,
     reportError (snd (CreateUser s1 n2 p2 false))
       (mkEnv (fst (CreateUser s1 n2 p2 false))
          (calls e ++ [CallAdminUserExists; CallCreateUser n1 p1 true;
                       CallAdminUserExists; CallCreateUser n2 p2 false])
          (written e))).
Proof.
  intros Hno Hc Hyes. cbn [rangeStatements].
  rewrite switchStatement_create_user. cbn zeta.
  rewrite Hno. cbn [negb]. rewrite Hc. cbn [fst snd reportError].
  rewrite switchStatement_create_user. cbn [server calls written].
  rewrite Hyes. cbn [negb]. by rewrite <- app_assoc.
Qed.

(** A statement of a kind that the switch does not list leaves [err] as
    the statement before set it, and the test after the switch reports
    it again: after a failed create-database statement, [k] such
    statements write the same error [k] more times. *)
Theorem unlisted_statement_repeats_error a k e s' msg :
  CreateDatabase (server e) a = (s', Some msg) ->
  rangeStatements (CreateDatabaseStatement a :: repeat OtherStatement k) None e
  = (None,
     mkEnv s' (calls e ++ [CallCreateDatabase a])
       (written e
        ++ repeat (("error executing query: " ++ msg)%string, 400%Z) (S k))).
Proof.
  intros Hc. cbn [rangeStatements switchStatement]. rewrite Hc.
  cbn [reportError]. unfold called, Handler_error. cbn [server calls written].
  generalize (calls e ++ [CallCreateDatabase a]). intros cs.
  change (repeat (("error executing query: " ++ msg)%string, 400%Z) (S k))
    with ([(("error executing query: " ++ msg)%string, StatusBadRequest)]
          ++ repeat (("error executing query: " ++ msg)%string, 400%Z) k).
  rewrite app_assoc.
  generalize (written e ++ [(("error executing query: " ++ msg)%string,
                             StatusBadRequest)]).
  induction k as [|k IH]; intros ws.
  - cbn. by rewrite app_nil_r.
  - cbn [repeat rangeStatements switchStatement reportError].
    unfold Handler_error. cbn [server calls written]. rewrite IH.
    by rewrite <- app_assoc.
Qed.

End Queries.

(** ** The handlers of the resources *)

Section ResourceHandlers.

Import Resources.

Context {Server Shard U User : Type}.
Context {api : ClusterAPI Server Shard U} {codec : Codec U}.

Implicit Types (r : Request) (body : string) (u : option User).
Implicit Types (c : Conn Server Shard U) (ws hs : list (Write Shard)).
Implicit Types (H : ResourceFunc (Server := Server) (Shard := Shard)
                      (U := U) (User := User)).

(** Unfolds a handler down to the operations it does. *)
Ltac run_handler :=
  repeat match goal with
    | |- context [match ?x with _ => _ end] => destruct x eqn:?
    end;
  unfold Resources.error, respond, ask;
  cbn [fst snd response cluster asked].

(** Every handler of a resource ends in one of three ways.  It returns
    after one [http.Error], of status 400 to 599, and nothing else: no
    header, no document; when this status is 400 the server was not
    called and is as it was before the request.  Or it returns without
    any [http.Error], and every status it has written is 200 to 299.  Or
    it panics: this is [serveCreateDataNode] alone, after it has written
    the status 201 and added its header, and before any document. *)
Theorem resource_response_shape H r body u c :
  In H [serveShards; serveRetentionPolicies; serveCreateRetentionPolicy;
        serveUpdateRetentionPolicy; serveDeleteRetentionPolicy;
        serveDataNodes; serveCreateDataNode; serveDeleteDataNode;
        servePing; serveDeleteShard; serveWriteSeries] ->
  exists ws,
    response (snd (H r body u c)) = response c ++ ws
    /\ ((fst (H r body u c) = None
         /\ exists text code,
              ws = [HttpError text code] /\ (400 <= code < 600)%Z
              /\ (code = 400%Z ->
                  asked (snd (H r body u c)) = asked c
                  /\ cluster (snd (H r body u c)) = cluster c))
        \/ (fst (H r body u c) = None
            /\ Forall (fun w => match w with
                                | HttpError _ _ => False
                                | WriteHeader code => (200 <= code < 300)%Z
                                | _ => True
                                end) ws)
        \/ (fst (H r body u c) = Some NilPointerDereference
            /\ H = serveCreateDataNode
            /\ ws = [WriteHeader 201%Z;
                     HeaderAdd "content-type" "application/json"])).
Proof.
  intros Hin. cbn [In] in Hin.
  repeat (destruct Hin as [<- | Hin]); [..|done];
    cbv beta zeta delta [serveShards serveRetentionPolicies
      serveCreateRetentionPolicy serveUpdateRetentionPolicy
      serveDeleteRetentionPolicy serveDataNodes serveCreateDataNode
      serveDeleteDataNode servePing serveDeleteShard serveWriteSeries];
    run_handler; rewrite <- ?app_assoc;
    unfold StatusNotFound, StatusInternalServerError, StatusConflict,
      StatusBadRequest, StatusCreated, StatusNoContent.
  all: (eexists; split; [reflexivity|]) || (exists []; split; [by rewrite app_nil_r|]).
  all: cbn [app].
  all: first
    [ left; split; [reflexivity|]; do 2 eexists;
      split; [reflexivity|]; split; [lia|];
      first [ intros _; split; reflexivity | intros [=] ]
    | right; left; split; [reflexivity|];
      repeat constructor; lia
    | right; right; repeat split; reflexivity ].
Qed.


(** [parseDigits] fails on a byte that is not a digit, and its values
    stay below [2^64]. *)
Lemma parseDigits_not_digit (s : string) (ch : ascii) (acc : Z) :
  In ch (list_ascii_of_string s) -> digitValue ch = None ->
  parseDigits s acc = None.
Proof.
  revert acc. induction s as [|c0 rest IH]; intros acc Hin Hd; [done|].
  cbn [parseDigits]. destruct Hin as [-> | Hin]; [by rewrite Hd|].
  destruct (digitValue c0); [|done].
  destruct (_ <? _)%Z; [|done]. by apply IH.
Qed.

Lemma parseDigits_range (s : string) (acc n : Z) :
  (0 <= acc < 2 ^ 64)%Z -> parseDigits s acc = Some n -> (0 <= n < 2 ^ 64)%Z.
Proof.
  revert acc. induction s as [|c0 rest IH]; intros acc Hacc Hp.
  - cbn in Hp. by injection Hp as <-.
  - cbn [parseDigits] in Hp. unfold digitValue in Hp.
    destruct (_ && _) eqn:Hd; [|done].
    apply andb_true_iff in Hd as [Hlo Hhi].
    apply Z.leb_le in Hlo, Hhi. cbn zeta in Hp.
    destruct (_ <? _)%Z eqn:Hlt; [|done]. apply Z.ltb_lt in Hlt.
    eapply IH; [|exact Hp]. lia.
Qed.

(** The id of [DELETE /data_nodes/:id] is read as a decimal number of
    64 bits.  An id that is empty or that holds a byte other than a
    digit (a sign, a space, a letter) is answered 400, [invalid node
    id], and the server is not called.  An id that is read is below
    [2^64], and [DeleteDataNode] is called with it, once. *)
Theorem delete_data_node_id r body u c :
  let id := Get (URL_Query r) ":id" in
  ((id = "" \/ exists ch, In ch (list_ascii_of_string id) /\ digitValue ch = None) ->
   serveDeleteDataNode r body u c =
     (None, mkConn (cluster c) (asked c)
              (response c ++ [HttpError "invalid node id" 400%Z])))
  /\ (forall n, ParseUint id = Some n ->
       (0 <= n < 2 ^ 64)%Z
       /\ cluster (snd (serveDeleteDataNode r body u c))
          = fst (DeleteDataNode (cluster c) n)
       /\ asked (snd (serveDeleteDataNode r body u c))
          = asked c ++ [CallDeleteDataNode n]).
Proof.
  intros id.
  assert (Hrange : forall n, ParseUint id = Some n -> (0 <= n < 2 ^ 64)%Z).
  { clearbody id. intros n Hp. unfold ParseUint in Hp.
    destruct id as [|c0 rest]; [done|].
    eapply parseDigits_range; [|exact Hp]. lia. }
  assert (Hnone : (id = "" \/ exists ch, In ch (list_ascii_of_string id)
                                   /\ digitValue ch = None) ->
                  ParseUint id = None).
  { clearbody id. intros [-> | (ch & Hin & Hd)]; [done|].
    unfold ParseUint. destruct id as [|c0 rest]; [done|].
    by apply (parseDigits_not_digit _ ch). }
  split.
  - intros Hbad. unfold serveDeleteDataNode. fold id. by rewrite (Hnone Hbad).
  - intros n Hp. split; [by apply Hrange|].
    unfold serveDeleteDataNode. fold id. rewrite Hp.
    destruct (DeleteDataNode (cluster c) n) as [s [[[]|]|]]; by cbn.
Qed.

(** [serveCreateDataNode] writes the status before it adds its
    content-type header.  On every request, what it does on the
    [ResponseWriter] is one [http.Error], or else [WriteHeader] with 201
    first, then the addition of the header, then at most the document
    of the node; [serveDataNodes] adds the header first and encodes the
    nodes after it.  And [serveCreateDataNode] returns with the status
    201, the header and the document of the node exactly when the body
    decodes, its URL parses, [CreateDataNode] succeeds and
    [DataNodeByURL] finds the node; the document is this node. *)
Theorem create_data_node_content_type r body u c :
  (exists ws,
     response (snd (serveCreateDataNode r body u c)) = response c ++ ws
     /\ ((exists text code, ws = [HttpError text code])
         \/ (exists rest,
               ws = WriteHeader 201%Z
                    :: HeaderAdd "content-type" "application/json" :: rest
               /\ (rest = [] \/ exists node, rest = [Encode (DocDataNode node)]))))
  /\ response (snd (serveDataNodes r body u c))
     = response c
       ++ [HeaderAdd "content-type" "application/json";
           Encode (DocDataNodes
                     (map (fun n => mkDataNodeJSON (nodeID n)
                                      (url_String (nodeURL n)))
                        (DataNodes (cluster c))))]
  /\ (forall node,
        (fst (serveCreateDataNode r body u c) = None
         /\ response (snd (serveCreateDataNode r body u c))
            = response c
              ++ [WriteHeader 201%Z;
                  HeaderAdd "content-type" "application/json";
                  Encode (DocDataNode node)])
        <-> exists n url s found,
              decodeDataNode body = inl n
              /\ url_Parse (URL n) = inl url
              /\ CreateDataNode (cluster c) url = (s, None)
              /\ DataNodeByURL s url = Some found
              /\ node = mkDataNodeJSON (nodeID found)
                          (url_String (nodeURL found))).
Proof.
  split; [|split].
  - unfold serveCreateDataNode. run_handler; rewrite <- ?app_assoc;
      (eexists; split; [reflexivity|]); cbn [app];
      first [ left; by do 2 eexists
            | right; eexists; split; [reflexivity|]; first [by left | right; by eexists] ].
  - unfold serveDataNodes, respond, ask. cbn [snd response].
    by rewrite <- app_assoc.
  - intros node. unfold serveCreateDataNode.
    assert (Herr : forall text code ws,
              response c ++ [HttpError text code : Write Shard]
              <> response c ++ WriteHeader 201%Z :: ws).
    { intros text code ws Heq. by apply app_inv_head in Heq. }
    destruct (decodeDataNode body) as [n|msg] eqn:Hd.
    2: { cbn [fst snd response Resources.error respond]. split.
         - intros [_ Heq]. by apply Herr in Heq.
         - by intros (? & ? & ? & ? & [=] & _). }
    destruct (url_Parse (URL n)) as [url|msg] eqn:Hu.
    2: { cbn [fst snd response Resources.error respond]. split.
         - intros [_ Heq]. by apply Herr in Heq.
         - intros (n' & ? & ? & ? & [= <-] & Hu' & _). congruence. }
    destruct (CreateDataNode (cluster c) url) as [s err] eqn:Hc.
    destruct err as [err|].
    { split.
      - intros [_ Heq]. destruct err as [[]|text];
          cbn [fst snd response Resources.error respond ask] in Heq;
          by apply Herr in Heq.
      - intros (n' & url' & s' & ? & [= <-] & Hu' & Hc' & _). congruence. }
    cbn [ask cluster].
    destruct (DataNodeByURL s url) as [found|] eqn:Hn.
    + unfold respond, ask. cbn [fst snd response cluster asked].
      rewrite <- !app_assoc. cbn [app]. split.
      * intros [_ Heq]. apply app_inv_head in Heq. injection Heq as <-.
        by exists n, url, s, found.
      * intros (n' & url' & s' & found' & [= <-] & Hu' & Hc' & Hn' & ->).
        rewrite Hu in Hu'. injection Hu' as <-. rewrite Hc in Hc'.
        injection Hc' as <-. rewrite Hn in Hn'. by injection Hn' as <-.
    + split; [by intros [[=] _]|].
      intros (n' & url' & s' & found' & [= <-] & Hu' & Hc' & Hn' & _).
      rewrite Hu in Hu'. injection Hu' as <-. rewrite Hc in Hc'.
      injection Hc' as <-. congruence.
Qed.

(** [serveCreateDataNode] panics exactly when the node was created and
    [DataNodeByURL] does not find it afterwards.  The status 201 is
    written by then, the node stays created, and no document follows. *)
Theorem create_data_node_panics r body u c :
  (fst (serveCreateDataNode r body u c) = Some NilPointerDereference
   <-> exists n url s,
         decodeDataNode body = inl n
         /\ url_Parse (URL n) = inl url
         /\ CreateDataNode (cluster c) url = (s, None)
         /\ DataNodeByURL s url = None)
  /\ (forall p, fst (serveCreateDataNode r body u c) = Some p ->
       exists url,
         response (snd (serveCreateDataNode r body u c))
         = response c ++ [WriteHeader 201%Z;
                          HeaderAdd "content-type" "application/json"]
         /\ cluster (snd (serveCreateDataNode r body u c))
            = fst (CreateDataNode (cluster c) url)
         /\ asked (snd (serveCreateDataNode r body u c))
            = asked c ++ [CallCreateDataNode url; CallDataNodeByURL url]).
Proof.
  unfold serveCreateDataNode.
  destruct (decodeDataNode body) as [n|msg] eqn:Hd.
  2: { split; [split; [done|by intros (? & ? & ? & [=] & _)] | done]. }
  destruct (url_Parse (URL n)) as [url|msg] eqn:Hu.
  2: { split; [split; [done|] | done].
       intros (n' & ? & ? & [= <-] & Hu' & _). congruence. }
  destruct (CreateDataNode (cluster c) url) as [s err] eqn:Hc.
  destruct err as [err|].
  { split; [split|].
    - by destruct err as [[]|text].
    - intros (n' & url' & s' & [= <-] & Hu' & Hc' & _). congruence.
    - by destruct err as [[]|text]. }
  cbn [ask cluster].
  destruct (DataNodeByURL s url) as [node|] eqn:Hn.
  - split; [split; [done|] | done].
    intros (n' & url' & s' & [= <-] & Hu' & Hc' & Hn').
    rewrite Hu in Hu'. injection Hu' as <-. rewrite Hc in Hc'.
    injection Hc' as <-. congruence.
  - split; [split; [intros _; by exists n, url, s | done]|].
    intros p _. exists url. rewrite Hc. unfold respond, ask.
    cbn [fst snd response cluster asked]. by rewrite <- !app_assoc.
Qed.

End ResourceHandlers.

(** ** The further theorems at concrete requests *)

(** Closes a goal [~ In c l] on a list of bytes that is given. *)
Ltac absent := cbn; intuition discriminate.

(** The header [Basic bGlzYTpwYXNzd29yZA==] gives lisa and her password. *)
Lemma basic_header_credentials_witness :
  ~ (Get (URL_Query Ref.basicLisa) "u" <> ""
     /\ Get (URL_Query Ref.basicLisa) "p" <> "")
  /\ Get (Header Ref.basicLisa) "Authorization"
     = ("Basic" ++ " " ++ "bGlzYTpwYXNzd29yZA==")%string
  /\ DecodeString (Library := Ref.decoding []) "bGlzYTpwYXNzd29yZA=="
     = inl ("lisa" ++ ":" ++ "password")%string
  /\ getUsernameAndPassword (lib := Ref.decoding []) Ref.basicLisa
     = ("lisa", "password", None).
Proof.
  assert (Hq : ~ (Get (URL_Query Ref.basicLisa) "u" <> ""
                  /\ Get (URL_Query Ref.basicLisa) "p" <> "")).
  { intros [Hu _]. apply Hu. vm_compute. reflexivity. }
  assert (Ha : Get (Header Ref.basicLisa) "Authorization"
               = ("Basic" ++ " " ++ "bGlzYTpwYXNzd29yZA==")%string)
    by (vm_compute; reflexivity).
  assert (Hd : DecodeString (Library := Ref.decoding []) "bGlzYTpwYXNzd29yZA=="
               = inl ("lisa" ++ ":" ++ "password")%string)
    by (vm_compute; reflexivity).
  split; [exact Hq|]. split; [exact Ha|]. split; [exact Hd|].
  apply (basic_header_credentials (lib := Ref.decoding []) Ref.basicLisa
           "Basic" "bGlzYTpwYXNzd29yZA==" "lisa" "password" Hq Ha);
    [absent | absent | exact Hd | absent | absent].
Defined.

(** [Bearer] in place of [Basic] changes nothing. *)
Lemma authorization_scheme_ignored_witness :
  URL_Query Ref.basicLisa = URL_Query Ref.bearerLisa
  /\ getUsernameAndPassword (lib := Ref.decoding []) Ref.basicLisa
     = getUsernameAndPassword (lib := Ref.decoding []) Ref.bearerLisa.
Proof.
  split; [reflexivity|].
  apply (authorization_scheme_ignored (lib := Ref.decoding [])
           Ref.basicLisa Ref.bearerLisa "Basic" "Bearer" "bGlzYTpwYXNzd29yZA==");
    [reflexivity | vm_compute; reflexivity | vm_compute; reflexivity
     | absent | absent].
Defined.

(** The password [pa:ss] does not pass. *)
Lemma basic_value_one_colon_witness :
  DecodeString (Library := Ref.decoding []) "bGlzYTpwYTpzcw==" = inl "lisa:pa:ss"
  /\ count_occ ascii_dec (list_ascii_of_string "lisa:pa:ss") ":"%char = 2%nat
  /\ getUsernameAndPassword (lib := Ref.decoding []) Ref.colonPassword
     = ("", "", Some "invalid Basic Authentication value").
Proof.
  assert (Hd : DecodeString (Library := Ref.decoding []) "bGlzYTpwYTpzcw=="
               = inl "lisa:pa:ss") by (vm_compute; reflexivity).
  split; [exact Hd|]. split; [vm_compute; reflexivity|].
  apply (basic_value_one_colon (lib := Ref.decoding []) Ref.colonPassword
           "Basic" "bGlzYTpwYTpzcw==" "lisa:pa:ss");
    [ intros [Hu _]; apply Hu; vm_compute; reflexivity
    | vm_compute; reflexivity | absent | absent | exact Hd
    | vm_compute; discriminate ].
Defined.

(** [u=lisa] alone, before a closed gate. *)
Lemma partial_query_credentials_witness :
  Get (URL_Query Ref.onlyUsername) "u" = "lisa"
  /\ Get (URL_Query Ref.onlyUsername) "p" = ""
  /\ Ref.query_route Ref.secured Ref.createOrla Ref.onlyUsername
       (Ref.start Ref.lisa)
     = (None, mkEnv Ref.lisa [CallUsers] [("username required", 401%Z)]).
Proof.
  split; [vm_compute; reflexivity|]. split; [vm_compute; reflexivity|].
  assert (Hq : ~ (Get (URL_Query Ref.onlyUsername) "u" <> ""
                  /\ Get (URL_Query Ref.onlyUsername) "p" <> "")).
  { intros [_ Hp]. apply Hp. vm_compute. reflexivity. }
  destruct (partial_query_credentials (lib := Ref.parsing Ref.createOrla)
              Ref.secured (serveQuery (lib := Ref.parsing Ref.createOrla) Ref.secured)
              Ref.onlyUsername (Ref.start Ref.lisa) Hq) as [_ Hgate].
  apply Hgate; [vm_compute; reflexivity | reflexivity | vm_compute; discriminate].
Defined.

(** [u=lisa&p=password] before a closed gate. *)
Lemma gate_query_credentials_witness :
  AuthenticationEnabled Ref.secured = true
  /\ Users (server (Ref.start Ref.lisa)) <> []
  /\ Get (URL_Query Ref.bothCarriers) "u" <> ""
  /\ Get (URL_Query Ref.bothCarriers) "p" <> ""
  /\ Ref.query_route Ref.secured Ref.createOrla Ref.bothCarriers
       (Ref.start Ref.lisa)
     = serveQuery (lib := Ref.parsing Ref.createOrla) Ref.secured
         Ref.bothCarriers (Some Ref.userLisa)
         (mkEnv Ref.lisa [CallUsers; CallAuthenticate "lisa" "password"] []).
Proof.
  assert (He : AuthenticationEnabled Ref.secured = true) by reflexivity.
  assert (Hu : Users (server (Ref.start Ref.lisa)) <> [])
    by (vm_compute; discriminate).
  assert (Hqu : Get (URL_Query Ref.bothCarriers) "u" <> "")
    by (vm_compute; discriminate).
  assert (Hqp : Get (URL_Query Ref.bothCarriers) "p" <> "")
    by (vm_compute; discriminate).
  split; [exact He|]. split; [exact Hu|]. split; [exact Hqu|]. split; [exact Hqp|].
  exact (gate_query_credentials (lib := Ref.parsing Ref.createOrla) Ref.secured
           (serveQuery (lib := Ref.parsing Ref.createOrla) Ref.secured)
           Ref.bothCarriers (Ref.start Ref.lisa) He Hu Hqu Hqp).
Defined.

(** Lisa, authenticated, and the nil user run the same query. *)
Lemma query_ignores_identity_witness :
  AuthenticationEnabled Ref.secured = true
  /\ Users (server (Ref.start Ref.lisa)) <> []
  /\ Authenticate Ref.lisa "lisa" "password" = inl Ref.userLisa
  /\ Ref.query_route Ref.secured Ref.createOrla Ref.asLisa (Ref.start Ref.lisa)
     = serveQuery (lib := Ref.parsing Ref.createOrla) Ref.secured Ref.asLisa None
         (mkEnv Ref.lisa [CallUsers; CallAuthenticate "lisa" "password"] []).
Proof.
  assert (He : AuthenticationEnabled Ref.secured = true) by reflexivity.
  assert (Hu : Users (server (Ref.start Ref.lisa)) <> [])
    by (vm_compute; discriminate).
  assert (Ha : Authenticate Ref.lisa "lisa" "password" = inl Ref.userLisa)
    by (vm_compute; reflexivity).
  split; [exact He|]. split; [exact Hu|]. split; [exact Ha|].
  apply (query_ignores_identity (lib := Ref.parsing Ref.createOrla) Ref.secured
           Ref.asLisa (Ref.start Ref.lisa) "lisa" "password" Ref.userLisa He Hu);
    [vm_compute; reflexivity | discriminate | exact Ha].
Defined.

(** Two create-database statements on the empty secured server, without
    credentials: both databases are created. *)
Lemma bootstrap_runs_every_query_witness :
  (AuthenticationEnabled Ref.secured = false
   \/ Users (server (Ref.start Ref.empty)) = [])
  /\ Ref.query_route Ref.secured Ref.twoDatabases Ref.anonymous
       (Ref.start Ref.empty)
     = rangeStatements (lib := Ref.parsing Ref.twoDatabases) Ref.twoDatabases
         None (mkEnv Ref.empty [CallUsers; CallUsers] [])
  /\ rangeStatements (lib := Ref.parsing Ref.twoDatabases) Ref.twoDatabases
       None (mkEnv Ref.empty [CallUsers; CallUsers] [])
     = (None,
        mkEnv (Ref.mkState [] ["a"; "b"] [])
          [CallUsers; CallUsers; CallCreateDatabase "a"; CallCreateDatabase "b"]
          []).
Proof.
  assert (Hopen : AuthenticationEnabled Ref.secured = false
                  \/ Users (server (Ref.start Ref.empty)) = [])
    by (right; reflexivity).
  split; [exact Hopen|]. split; [|vm_compute; reflexivity].
  exact (bootstrap_runs_every_query (lib := Ref.parsing Ref.twoDatabases)
           Ref.secured Ref.anonymous (Ref.start Ref.empty) Ref.twoDatabases
           Hopen eq_refl).
Defined.

(** A select and a list statement leave the server with lisa alone. *)
Lemma passed_over_statements_witness :
  rangeState (lib := Ref.parsing Ref.selectAndList) Ref.selectAndList
    (Some "pending") (Ref.start Ref.lisa)
  = (None, Some "pending", Ref.start Ref.lisa)
  /\ serveQuery (lib := Ref.parsing Ref.selectAndList) Ref.open Ref.anonymous
       None (Ref.start Ref.lisa)
     = (None, Ref.start Ref.lisa).
Proof.
  assert (Hall : Forall
    (fun s => In s [SelectStatement; DropSeriesStatement; ListSeriesStatement;
       ListMeasurementsStatement; ListTagKeysStatement; ListTagValuesStatement;
       ListFieldKeysStatement; ListFieldValuesStatement; GrantStatement;
       RevokeStatement; CreateContinuousQueryStatement;
       DropContinuousQueryStatement; ListContinuousQueriesStatement])
    Ref.selectAndList).
  { repeat constructor; cbn; tauto. }
  destruct (passed_over_statements (api := Ref.api)
              (lib := Ref.parsing Ref.selectAndList) Ref.selectAndList Hall)
    as [Hloop Hserve].
  split; [apply Hloop|].
  apply Hserve; reflexivity.
Defined.

(** Orla and maeve created by one query on the empty server: orla is
    admin, maeve is not. *)
Lemma second_create_user_not_admin_witness :
  AdminUserExists (server (Ref.start Ref.empty)) = false
  /\ CreateUser Ref.empty "orla" "pass" true
     = (Ref.mkState [Ref.userOrla] [] [], None)
  /\ AdminUserExists (Ref.mkState [Ref.userOrla] [] []) = true
  /\ rangeStatements (lib := Ref.parsing Ref.twoUsers) Ref.twoUsers None
       (Ref.start Ref.empty)
     = (None,
        mkEnv (Ref.mkState [Ref.userOrla; Ref.userMaeve] [] [])
          [CallAdminUserExists; CallCreateUser "orla" "pass" true;
           CallAdminUserExists; CallCreateUser "maeve" "pass" false]
          []).
Proof.
  assert (Hc : CreateUser Ref.empty "orla" "pass" true
               = (Ref.mkState [Ref.userOrla] [] [], None))
    by (vm_compute; reflexivity).
  split; [reflexivity|]. split; [exact Hc|]. split; [reflexivity|].
  exact (second_create_user_not_admin (lib := Ref.parsing Ref.twoUsers)
           "orla" "pass" "maeve" "pass" (Ref.start Ref.empty)
           (Ref.mkState [Ref.userOrla] [] []) eq_refl Hc eq_refl).
Defined.

(** A create-database statement without name and two statements that
    the switch does not list: the error is written three times. *)
Lemma unlisted_statement_repeats_error_witness :
  CreateDatabase Ref.empty "" = (Ref.empty, Some "database name required")
  /\ rangeStatements (lib := Ref.parsing Ref.failThenUnlisted)
       Ref.failThenUnlisted None (Ref.start Ref.empty)
     = (None,
        mkEnv Ref.empty [CallCreateDatabase ""]
          [("error executing query: database name required", 400%Z);
           ("error executing query: database name required", 400%Z);
           ("error executing query: database name required", 400%Z)]).
Proof.
  assert (Hc : CreateDatabase Ref.empty ""
               = (Ref.empty, Some "database name required"))
    by (vm_compute; reflexivity).
  split; [exact Hc|].
  exact (unlisted_statement_repeats_error (lib := Ref.parsing Ref.failThenUnlisted)
           "" 2 (Ref.start Ref.empty) Ref.empty "database name required" Hc).
Defined.

(** [DELETE /data_nodes/abc]: one error 400, the server not called. *)
Lemma resource_response_shape_witness :
  exists ws,
    Resources.response (snd (Resources.serveDeleteDataNode (User := Ref.user)
                     (RefCluster.request "" "" "abc") ""
                     None (RefCluster.start RefCluster.foo)))
    = [] ++ ws
    /\ ws = [Resources.HttpError "invalid node id" 400%Z]
    /\ Resources.asked
         (snd (Resources.serveDeleteDataNode (User := Ref.user)
                 (RefCluster.request "" "" "abc") ""
                 None (RefCluster.start RefCluster.foo))) = [].
Proof.
  destruct (resource_response_shape (User := Ref.user)
              Resources.serveDeleteDataNode (RefCluster.request "" "" "abc") ""
              None (RefCluster.start RefCluster.foo))
    as (ws & Hws & Hshape).
  { cbn [In]. tauto. }
  assert (Heq : ws = [Resources.HttpError "invalid node id" 400%Z]).
  { vm_compute in Hws. exact (eq_sym Hws). }
  exists ws. split; [exact Hws|]. split; [exact Heq|].
  destruct Hshape as [(_ & text & code & Hone & _ & Hbad)
                     | [(_ & Hall) | (Hexit & _)]].
  - rewrite Heq in Hone. injection Hone as _ <-. by apply Hbad.
  - rewrite Heq in Hall. by inversion Hall.
  - vm_compute in Hexit. discriminate Hexit.
Defined.

(** [DELETE /data_nodes/-1] is refused, [DELETE /data_nodes/1] deletes
    the node 1. *)
Lemma delete_data_node_id_witness :
  In "-"%char (list_ascii_of_string (Get (URL_Query (RefCluster.request "" "" "-1")) ":id"))
  /\ Resources.digitValue "-"%char = None
  /\ Resources.serveDeleteDataNode (User := Ref.user)
       (RefCluster.request "" "" "-1") "" None (RefCluster.start RefCluster.foo)
     = (None,
        Resources.mkConn RefCluster.foo []
          [Resources.HttpError "invalid node id" 400%Z])
  /\ Resources.ParseUint (Get (URL_Query (RefCluster.request "" "" "1")) ":id")
     = Some 1%Z
  /\ Resources.asked
       (snd (Resources.serveDeleteDataNode (User := Ref.user)
               (RefCluster.request "" "" "1") "" None
               (RefCluster.start RefCluster.foo)))
     = [Resources.CallDeleteDataNode 1%Z].
Proof.
  assert (Hin : In "-"%char
            (list_ascii_of_string
               (Get (URL_Query (RefCluster.request "" "" "-1")) ":id")))
    by (vm_compute; left; reflexivity).
  assert (Hd : Resources.digitValue "-"%char = None) by reflexivity.
  assert (Hp : Resources.ParseUint
                 (Get (URL_Query (RefCluster.request "" "" "1")) ":id")
               = Some 1%Z) by (vm_compute; reflexivity).
  split; [exact Hin|]. split; [exact Hd|]. split; [|split; [exact Hp|]].
  - destruct (delete_data_node_id (User := Ref.user)
                (RefCluster.request "" "" "-1") "" None
                (RefCluster.start RefCluster.foo)) as [Hbad _].
    apply Hbad. right. exists "-"%char. split; [exact Hin | exact Hd].
  - destruct (delete_data_node_id (User := Ref.user)
                (RefCluster.request "" "" "1") "" None
                (RefCluster.start RefCluster.foo)) as [_ Hgood].
    destruct (Hgood 1%Z Hp) as (_ & _ & Hasked). exact Hasked.
Defined.

(** [POST /data_nodes] with a new URL: the status 201, then the header,
    then the node 2. *)
Lemma create_data_node_content_type_witness :
  Resources.CreateDataNode RefCluster.foo "http://localhost:2000"
  = (RefCluster.mkState
       [Resources.mkDataNode 1 "http://localhost:1000";
        Resources.mkDataNode 2 "http://localhost:2000"] 3
       [("foo", [mkRetentionPolicy "bar" 3600 1])], None)
  /\ Resources.serveCreateDataNode (User := Ref.user)
       (RefCluster.request "" "" "") "http://localhost:2000" None
       (RefCluster.start RefCluster.foo)
     = (None,
        Resources.mkConn
          (RefCluster.mkState
             [Resources.mkDataNode 1 "http://localhost:1000";
              Resources.mkDataNode 2 "http://localhost:2000"] 3
             [("foo", [mkRetentionPolicy "bar" 3600 1])])
          [Resources.CallCreateDataNode "http://localhost:2000";
           Resources.CallDataNodeByURL "http://localhost:2000"]
          [Resources.WriteHeader 201%Z;
           Resources.HeaderAdd "content-type" "application/json";
           Resources.Encode
             (Resources.DocDataNode
                (Resources.mkDataNodeJSON 2 "http://localhost:2000"))])
  /\ Resources.response
       (snd (Resources.serveCreateDataNode (User := Ref.user)
               (RefCluster.request "" "" "") "http://localhost:2000" None
               (RefCluster.start RefCluster.foo)))
     = [] ++ [Resources.WriteHeader 201%Z;
              Resources.HeaderAdd "content-type" "application/json";
              Resources.Encode
                (Resources.DocDataNode
                   (Resources.mkDataNodeJSON 2 "http://localhost:2000"))].
Proof.
  split; [vm_compute; reflexivity|]. split; [vm_compute; reflexivity|].
  destruct (create_data_node_content_type (User := Ref.user)
              (RefCluster.request "" "" "") "http://localhost:2000" None
              (RefCluster.start RefCluster.foo)) as (_ & _ & Hcreated).
  apply (Hcreated (Resources.mkDataNodeJSON 2 "http://localhost:2000")).
  exists (Resources.mkDataNodeJSON 0 "http://localhost:2000"),
    "http://localhost:2000",
    (RefCluster.mkState
       [Resources.mkDataNode 1 "http://localhost:1000";
        Resources.mkDataNode 2 "http://localhost:2000"] 3
       [("foo", [mkRetentionPolicy "bar" 3600 1])]),
    (Resources.mkDataNode 2 "http://localhost:2000").
  repeat split; vm_compute; reflexivity.
Defined.

(** On a server that does not find the node it has created, the
    handler panics. *)
Lemma create_data_node_panics_witness :
  Resources.DataNodeByURL (ClusterAPI := RefCluster.forgetful)
    RefCluster.foo "http://localhost:2000" = None
  /\ fst (Resources.serveCreateDataNode (api := RefCluster.forgetful)
            (User := Ref.user)
            (RefCluster.request "" "" "") "http://localhost:2000" None
            (RefCluster.start RefCluster.foo))
     = Some NilPointerDereference.
Proof.
  split; [reflexivity|].
  destruct (create_data_node_panics (api := RefCluster.forgetful)
              (User := Ref.user)
              (RefCluster.request "" "" "") "http://localhost:2000" None
              (RefCluster.start RefCluster.foo)) as [[_ Hpanic] _].
  apply Hpanic.
  exists (Resources.mkDataNodeJSON 0 "http://localhost:2000"),
    "http://localhost:2000",
    (RefCluster.mkState
       [Resources.mkDataNode 1 "http://localhost:1000";
        Resources.mkDataNode 2 "http://localhost:2000"] 3
       [("foo", [mkRetentionPolicy "bar" 3600 1])]).
  repeat split; vm_compute; reflexivity.
Defined.
